(** * The builder route of the Next.js app-router integration

    A shallow embedding of [dev/nextjs-app-router] route handlers
    ([GET], [POST], [handleEditorNew], [handleDataNew], [handleAssetNew],
    [handleThemeNew], [getQueryParams]) together with the pieces of the
    JavaScript runtime they lean on: [JSON.stringify], the string coercion
    of a response body, and POSIX [path.join].

    Asynchronous code is embedded as a computation that yields the ordered
    list of calls it made to its collaborators and either a value or the
    thrown error: an [await] on a rejected promise is a throw. *)

From Stdlib Require Import Ascii String ZArith List.
From stdpp Require Import gmap strings list pretty.

Set Warnings "-register-all".
Local Open Scope string_scope.
Local Open Scope Z_scope.

(** ** JavaScript values *)

Module Js.

(** The JSON-shaped values the route builds or relays. The route never
    computes with a number, it only prints it: a number is carried by the
    text its conversion to a string gives, which for a finite number is
    also its JSON text. *)
Inductive Json : Type :=
| JNull
| JBool (b : bool)
| JNum (text : string)
| JStr (s : string)
| JArr (items : list Json)
| JObj (fields : list (string * Json)).

(** Values that reach a [catch] clause. *)
Inductive JsError : Type :=
| SystemError (code path : string)
| TypeError (msg : string)
| SyntaxError (msg : string)
| LibraryError (msg : string).

(** Settlement of a promise (or completion of a synchronous call). *)
Inductive Outcome (A : Type) : Type :=
| Returned (a : A)
| Threw (e : JsError).
Arguments Returned {A} a.
Arguments Threw {A} e.

Definition dquote : string := String "034"%char "".

Definition hex_digit (n : nat) : ascii :=
  if (n <? 10)%nat then ascii_of_nat (48 + n) else ascii_of_nat (87 + n).

(** [QuoteJSONString], one code unit at a time. *)
Definition json_escape_char (c : ascii) : string :=
  let n := nat_of_ascii c in
  if (n =? 34)%nat then "\" +:+ dquote
  else if (n =? 92)%nat then "\\"
  else if (n =? 8)%nat then "\b"
  else if (n =? 12)%nat then "\f"
  else if (n =? 10)%nat then "\n"
  else if (n =? 13)%nat then "\r"
  else if (n =? 9)%nat then "\t"
  else if (n <? 32)%nat then
    "\u00" +:+ String (hex_digit (n / 16)) (String (hex_digit (n mod 16)) "")
  else String c "".

Fixpoint json_escape (s : string) : string :=
  match s with
  | EmptyString => ""
  | String c s' => json_escape_char c +:+ json_escape s'
  end.

Definition json_quote (s : string) : string :=
  dquote +:+ json_escape s +:+ dquote.

(** [JSON.stringify(j)] without indentation. *)
Fixpoint JSON_stringify (j : Json) : string :=
  match j with
  | JNull => "null"
  | JBool true => "true"
  | JBool false => "false"
  | JNum text => text
  | JStr s => json_quote s
  | JArr items => "[" +:+ String.concat "," (map JSON_stringify items) +:+ "]"
  | JObj fields =>
      "{" +:+ String.concat ","
                (map (λ kv, json_quote (fst kv) +:+ ":" +:+ JSON_stringify (snd kv))
                     fields) +:+ "}"
  end.

(** The object has an own property of this name. *)
Definition has_own (key : string) (fields : list (string * Json)) : bool :=
  existsb (λ kv, (fst kv =? key)%string) fields.

(** [String(v)] on a parsed JSON value. An array joins the conversions of
    its elements with commas, null printing as nothing. An object prints
    as the fixed tag through the inherited [toString]; when it has an own
    [toString] property, which in a parsed value is never a function, no
    conversion to a primitive is left and the coercion throws. *)
Fixpoint ToString (j : Json) : Outcome string :=
  match j with
  | JNull => Returned "null"
  | JBool true => Returned "true"
  | JBool false => Returned "false"
  | JNum text => Returned text
  | JStr s => Returned s
  | JArr items =>
      match
        (fix join_items (l : list Json) : Outcome (list string) :=
           match l with
           | [] => Returned []
           | x :: l' =>
               match (match x with JNull => Returned "" | _ => ToString x end) with
               | Threw e => Threw e
               | Returned sx =>
                   match join_items l' with
                   | Threw e => Threw e
                   | Returned sl => Returned (sx :: sl)
                   end
               end
           end) items
      with
      | Threw e => Threw e
      | Returned parts => Returned (String.concat "," parts)
      end
  | JObj fields =>
      if has_own "toString" fields
      then Threw (TypeError "Cannot convert object to primitive value")
      else Returned "[object Object]"
  end.

(** [a || b] on a possibly undefined string: the empty string is falsy. *)
Definition or_else (a : option string) (b : string) : string :=
  match a with
  | Some s => if (s =? "")%string then b else s
  | None => b
  end.

(** [a === s] (and [a == s]) for a possibly undefined string [a]. *)
Definition strict_eq (a : option string) (s : string) : bool :=
  match a with
  | Some t => (t =? s)%string
  | None => false
  end.

(** [s.startsWith(p)]. *)
Definition startsWith (s p : string) : bool := String.prefix p s.

(** [Object.fromEntries(entries)]: a later entry overwrites an earlier one
    with the same key. The map holds the own properties of the object; the
    route reads [type], [path], [ext] and [name] from it, none of which the
    object inherits. *)
Definition fromEntries (entries : list (string * string)) : gmap string string :=
  foldl (λ (o : gmap string string) kv, <[kv.1 := kv.2]> o) ∅ entries.

End Js.

Export Js.

(** ** [path.join] of node:path (POSIX flavour) *)

Module NodePath.

Fixpoint split_go (cur s : string) : list string :=
  match s with
  | EmptyString => [cur]
  | String c s' =>
      if Ascii.eqb c "/"%char then cur :: split_go "" s'
      else split_go (cur +:+ String c "") s'
  end.

(** The segments between the slashes of a path. *)
Definition segments (p : string) : list string := split_go "" p.

(** One step of [normalizeString] on the stack of kept segments (top
    first): empty and [.] segments vanish, [..] pops a kept segment when
    there is one that is not itself [..], and otherwise is kept only where
    climbing above the start is allowed. *)
Definition normalize_step (allowAboveRoot : bool) (kept : list string)
    (seg : string) : list string :=
  if (seg =? "")%string || (seg =? ".")%string then kept
  else if (seg =? "..")%string then
    match kept with
    | top :: rest =>
        if (top =? "..")%string
        then (if allowAboveRoot then ".." :: kept else kept)
        else rest
    | [] => if allowAboveRoot then [".."] else []
    end
  else seg :: kept.

Definition normalizeString (p : string) (allowAboveRoot : bool) : string :=
  String.concat "/" (rev (foldl (normalize_step allowAboveRoot) [] (segments p))).

Definition last_is_slash (p : string) : bool :=
  match String.rev p with
  | String c _ => Ascii.eqb c "/"%char
  | EmptyString => false
  end.

Definition normalize (p : string) : string :=
  if (p =? "")%string then "."
  else
    let isAbsolute := startsWith p "/" in
    let trailingSeparator := last_is_slash p in
    let q := normalizeString p (negb isAbsolute) in
    if (q =? "")%string then
      (if isAbsolute then "/" else if trailingSeparator then "./" else ".")
    else
      let q := if trailingSeparator then q +:+ "/" else q in
      if isAbsolute then "/" +:+ q else q.

(** Every argument is validated to be a string, in order; an undefined
    argument is a [TypeError]. *)
Fixpoint validated (args : list (option string)) : Outcome (list string) :=
  match args with
  | [] => Returned []
  | None :: _ => Threw (TypeError "ERR_INVALID_ARG_TYPE")
  | Some a :: rest =>
      match validated rest with
      | Returned l => Returned (a :: l)
      | Threw e => Threw e
      end
  end.

(** The join of arguments already known to be strings. *)
Definition join_strings (l : list string) : string :=
  match List.filter (λ a, negb (a =? "")%string) l with
  | [] => "."
  | parts => normalize (String.concat "/" parts)
  end.

Definition join (args : list (option string)) : Outcome string :=
  match validated args with
  | Threw e => Threw e
  | Returned l => Returned (join_strings l)
  end.

End NodePath.

(** ** Requests, responses and the calls a handler makes *)

(** What the handlers read of a [NextRequest]: the method, the entries of
    [new URL(req.url).searchParams] in order, the headers (a [Headers]
    object keys them by lower-cased name) and the body, null when there is
    none. *)
Record NextRequest : Type := {
  req_method : string;
  req_searchParams : list (string * string);
  req_headers : gmap string string;
  req_body : option string;
}.

(** A response body: absent, the JSON text of a value (as built by
    [NextResponse.json]), a buffer, or a string. *)
Inductive Body : Type :=
| BodyNull
| BodyJson (j : Json)
| BodyBuffer (data : list Byte.byte)
| BodyText (s : string).

Record Response : Type := {
  res_status : Z;
  res_headers : list (string * string);
  res_body : Body;
}.

(** Calls that leave the handler, in the order they are made. *)
Inductive Event : Type :=
| EvLoadData (route : option string) (ext : string)
| EvUpdateData (route : option string) (ext : string) (body : option string)
| EvUploadFiles (req : NextRequest)
| EvReadFile (p : string)
| EvReadFileUtf8 (p : string)
| EvReaddir (p : string)
| EvConsoleError (msg : string) (e : JsError).

(** A computation: the calls made so far and how it settled. *)
Definition Eff (A : Type) : Type := list Event * Outcome A.

#[global] Instance Eff_ret : MRet Eff := λ A a, ([], Returned a).

#[global] Instance Eff_bind : MBind Eff := λ A B f m,
  match m with
  | (t, Returned a) => let '(t', r) := f a in ((t ++ t')%list, r)
  | (t, Threw e) => (t, Threw e)
  end.

(** A synchronous call that makes no outside call of its own. *)
Definition lift {A} (r : Outcome A) : Eff A := ([], r).

(** [await f(...)]: the call is recorded, its settlement is the result. *)
Definition await {A} (ev : Event) (r : Outcome A) : Eff A := ([ev], r).

Definition console_error (msg : string) (e : JsError) : Eff unit :=
  ([EvConsoleError msg e], Returned tt).

(** [try { m } catch (error) { h error }]. *)
Definition try_catch {A} (m : Eff A) (h : JsError → Eff A) : Eff A :=
  match m with
  | (t, Returned a) => (t, Returned a)
  | (t, Threw e) => let '(t', r) := h e in ((t ++ t')%list, r)
  end.

(** The promises of a list, created left to right: the calls of all of
    them, their values and their rejections, each in list order. *)
Fixpoint settle_all {A} (ps : list (Eff A)) : list Event * (list A * list JsError) :=
  match ps with
  | [] => ([], ([], []))
  | (t, r) :: rest =>
      let '(t', (vs, errs)) := settle_all rest in
      ((t ++ t')%list,
       match r with
       | Returned a => (a :: vs, errs)
       | Threw e => (vs, e :: errs)
       end)
  end.

(** [await Promise.all(ps)]: every promise has been started, so all their
    calls are recorded. The result is the list of values, or, when some
    promise rejects, the rejection that came first in time: [earliest]
    tells which of the rejections that is. *)
Definition Promise_all {A} (earliest : list JsError → nat) (ps : list (Eff A))
    : Eff (list A) :=
  let '(t, (vs, errs)) := settle_all ps in
  (t, match errs with
      | [] => Returned vs
      | e :: _ => Threw (nth (earliest errs) errs e)
      end).

Definition trace {A} (m : Eff A) : list Event := fst m.
Definition outcome {A} (m : Eff A) : Outcome A := snd m.

(** ASCII lower-casing, for header names. *)
Definition lower_char (c : ascii) : ascii :=
  let n := nat_of_ascii c in
  if ((65 <=? n) && (n <=? 90))%nat then ascii_of_nat (n + 32) else c.

Fixpoint lower (s : string) : string :=
  match s with
  | EmptyString => ""
  | String c s' => String (lower_char c) (lower s')
  end.

(** [headers.get(name)] on a response: header names compare without case. *)
Fixpoint headers_get (name : string) (hs : list (string * string)) : option string :=
  match hs with
  | [] => None
  | (k, v) :: rest =>
      if (lower k =? lower name)%string then Some v else headers_get name rest
  end.

(** [NextResponse.json(j, { status })]. *)
Definition NextResponse_json (j : Json) (status : Z) : Response :=
  {| res_status := status;
     res_headers := [("content-type", "application/json")];
     res_body := BodyJson j |}.

Definition error_object (msg : string) : Json := JObj [("error", JStr msg)].

(** The bytes of a body, as [response.arrayBuffer()] gives them. *)
Definition body_bytes (b : Body) : list Byte.byte :=
  match b with
  | BodyNull => []
  | BodyJson j => list_byte_of_string (JSON_stringify j)
  | BodyBuffer data => data
  | BodyText s => list_byte_of_string s
  end.

(** A parsed JSON value passed where a response body is expected: null is
    no body, anything else is coerced to a string, which may throw. *)
Definition BodyInit_of_value (j : Json) : Outcome Body :=
  match j with
  | JNull => Returned BodyNull
  | _ =>
      match ToString j with
      | Returned s => Returned (BodyText s)
      | Threw e => Threw e
      end
  end.

(** ** The collaborators

    What the route imports from [destack/build/server] and the runtime:
    where the package is installed and where the process runs, the
    document store ([loadData], [updateData]), the upload transport, the
    file system with the order in which its rejected reads settle, and
    the JSON parser applied to a body that was not built by
    [NextResponse.json]. Their code is outside the route; the calls may
    throw. [loadData] resolves to a value [NextResponse.json] can
    serialise. *)
Record Env : Type := {
  package_dir : string;
  process_cwd : string;
  loadData : option string → string → Outcome Json;
  updateData : option string → string → option string → Outcome unit;
  uploadFiles : NextRequest → Outcome (list string);
  fs_readFile : string → Outcome (list Byte.byte);
  fs_readFile_utf8 : string → Outcome string;
  fs_readdir : string → Outcome (list string);
  earliest_rejection : list JsError → nat;
  JSON_parse : string → Outcome Json;
}.

(** ** The route *)

Section Route.

Variable env : Env.

(** The package root: the directory of [destack/package.json], taken
    relative to the parent of the working directory when the bundler
    reports it under an [(api)] or [(rsc)] layer. *)
Definition getPackagePath : string :=
  let pathCurrent := package_dir env in
  if startsWith pathCurrent "(api)" || startsWith pathCurrent "(rsc)"
  then NodePath.join_strings [process_cwd env; ".."; pathCurrent]
  else pathCurrent.

Definition internal_error : Response :=
  NextResponse_json (error_object "Internal Server Error") 500.

(** Helper function to extract query parameters from the request URL. *)
Definition getQueryParams (req : NextRequest) : gmap string string :=
  fromEntries (req_searchParams req).

(** [contentType?.startsWith('multipart/form-data')], as the truth value
    the following [!isMultiPart] tests: undefined is falsy. *)
Definition isMultiPart (req : NextRequest) : bool :=
  match req_headers req !! "content-type" with
  | Some contentType => startsWith contentType "multipart/form-data"
  | None => false
  end.

(** Handle data-related operations: load or update data based on the
    request method. *)
Definition handleDataNew (req : NextRequest) : Eff Response :=
  try_catch
    (let queryParams := getQueryParams req in
     if (req_method req =? "GET")%string then
       data ← await (EvLoadData (queryParams !! "path") (or_else (queryParams !! "ext") "html"))
                    (loadData env (queryParams !! "path") (or_else (queryParams !! "ext") "html"));
       mret (NextResponse_json data 200)
     else if (req_method req =? "POST")%string then
       if negb (isMultiPart req) then
         let body := req_body req in
         await (EvUpdateData (queryParams !! "path") (or_else (queryParams !! "ext") "html") body)
               (updateData env (queryParams !! "path") (or_else (queryParams !! "ext") "html") body);;
         mret (NextResponse_json (JObj []) 200)
       else
         urls ← await (EvUploadFiles req) (uploadFiles env req);
         mret (NextResponse_json (JArr (map JStr urls)) 200)
     else mret (NextResponse_json (error_object "Method Not Allowed") 405))
    (λ error,
       console_error "Error handling data in handleDataNew:" error;;
       mret internal_error).

(** Handle asset requests (image files). *)
Definition handleAssetNew (req : NextRequest) : Eff Response :=
  try_catch
    (if (req_method req =? "GET")%string then
       let queryParams := getQueryParams req in
       assetPath ← lift (NodePath.join [Some getPackagePath; queryParams !! "path"]);
       data ← await (EvReadFile assetPath) (fs_readFile env assetPath);
       mret {| res_status := 200;
               res_headers := [("Content-Type", "image/png");
                               ("Content-Length", pretty (length data))];
               res_body := BodyBuffer data |}
     else mret (NextResponse_json (error_object "Method Not Allowed") 405))
    (λ error,
       console_error "Error handling asset in handleAssetNew:" error;;
       mret internal_error).

(** The [filter] callback of the theme listing:
    [c !== 'index.ts' && !c.startsWith('.')]. *)
Definition is_component (c : string) : bool :=
  negb (c =? "index.ts")%string && negb (startsWith c ".").

(** The [map] callback of the theme listing: read one component's source. *)
Definition read_component (folderPath c : string) : Eff Json :=
  assetPath ← lift (NodePath.join [Some folderPath; Some c; Some "index.html"]);
  source ← await (EvReadFileUtf8 assetPath) (fs_readFile_utf8 env assetPath);
  mret (JObj [("source", JStr source); ("folder", JStr c)]).

(** Handle theme requests, loading the components of a theme. *)
Definition handleThemeNew (req : NextRequest) : Eff Response :=
  try_catch
    (if (req_method req =? "GET")%string then
       let queryParams := getQueryParams req in
       let themeName := queryParams !! "name" in
       folderPath ← lift (NodePath.join [Some getPackagePath; Some "themes"; themeName]);
       f ← await (EvReaddir folderPath) (fs_readdir env folderPath);
       let componentNames := List.filter is_component f in
       let componentsP := map (read_component folderPath) componentNames in
       components ← Promise_all (earliest_rejection env) componentsP;
       mret (NextResponse_json (JArr components) 200)
     else mret (NextResponse_json (error_object "Not allowed") 405))
    (λ error,
       console_error "Error handling theme in handleThemeNew:" error;;
       mret internal_error).

(** Main handler that delegates to the specific handlers based on the
    query type. The [try] block evaluates to the promise of the chosen
    handler, which is returned without being awaited: the [catch] clause
    guards the comparisons of [query.type] only, and the promise settles
    after the block has been left. *)
Definition handleEditorNew (req : NextRequest) (query : gmap string string)
    : Eff Response :=
  promise ← try_catch
    (mret (if strict_eq (query !! "type") "data" then handleDataNew req
           else if strict_eq (query !! "type") "asset" then handleAssetNew req
           else if strict_eq (query !! "type") "theme" then handleThemeNew req
           else mret (NextResponse_json (error_object "Invalid Type") 400)))
    (λ error,
       console_error "Error handling editor request:" error;;
       mret (mret internal_error));
  promise.

(** [await result.json()]: the value a JSON body was built from, and the
    parse of the text of any other body. *)
Definition Response_json (result : Response) : Eff Json :=
  match res_body result with
  | BodyJson j => mret j
  | b => lift (JSON_parse env (string_of_list_byte (body_bytes b)))
  end.

(** What [JSON.stringify] sees of a [Response] object: status, headers and
    body sit behind accessors of the prototype, so it has no enumerable
    own property and serialises as the empty object. *)
Definition Response_as_value (result : Response) : Json := JObj [].

(** The response both exported handlers build in their [catch] clause. *)
Definition route_failure : Response :=
  {| res_status := 500;
     res_headers := [("Content-Type", "application/json")];
     res_body := BodyText (JSON_stringify (error_object "Internal Server Error")) |}.

(** Handle GET requests with the content types of the theme, asset and
    default cases. *)
Definition GET (req : NextRequest) : Eff Response :=
  try_catch
    (let queryParams := getQueryParams req in
     result ← handleEditorNew req queryParams;
     if strict_eq (queryParams !! "type") "theme" then
       responseBody ← Response_json result;
       mret (NextResponse_json responseBody 200)
     else if strict_eq (queryParams !! "type") "asset" then
       let arrayBuffer := body_bytes (res_body result) in
       mret {| res_status := 200;
               res_headers := [("Content-Type", "image/png")];
               res_body := BodyBuffer arrayBuffer |}
     else
       response ← Response_json result;
       body ← lift (BodyInit_of_value response);
       mret {| res_status := 200;
               res_headers := [("Content-Type", "application/json")];
               res_body := body |})
    (λ error,
       console_error "Error handling GET request:" error;;
       mret route_failure).

(** Handle POST requests. *)
Definition POST (req : NextRequest) : Eff Response :=
  try_catch
    (let queryParams := getQueryParams req in
     result ← handleEditorNew req queryParams;
     if strict_eq (queryParams !! "type") "theme" then
       responseBody ← Response_json result;
       mret (NextResponse_json responseBody 200)
     else mret (NextResponse_json (Response_as_value result) 200))
    (λ error,
       console_error "Error handling POST request:" error;;
       mret route_failure).

End Route.

(** ** Reading the claims

    Notions the statements below are phrased with. *)

(** [p] is the root itself or lies beneath it. *)
Definition within_root (root p : string) : bool :=
  (p =? root)%string || startsWith p (root +:+ "/").

(** The file an asset request resolves to ([path.join] of the package root
    and the [path] parameter), when the join itself succeeds. *)
Definition resolveAsset (env : Env) (req : NextRequest) : Outcome string :=
  NodePath.join [Some (getPackagePath env); getQueryParams req !! "path"].

(** The read an asset request performs. *)
Definition asset_read (env : Env) (req : NextRequest) : Outcome (list Byte.byte) :=
  match resolveAsset env req with
  | Returned p => fs_readFile env p
  | Threw e => Threw e
  end.

(** The directory of the theme a request names. *)
Definition themeFolder (env : Env) (req : NextRequest) : Outcome string :=
  NodePath.join [Some (getPackagePath env); Some "themes"; getQueryParams req !! "name"].

(** The source read from the folder [c] of a theme directory. *)
Definition component_source (env : Env) (folderPath c : string) : Outcome string :=
  match NodePath.join [Some folderPath; Some c; Some "index.html"] with
  | Returned p => fs_readFile_utf8 env p
  | Threw e => Threw e
  end.

(** One entry of a theme listing. *)
Definition component_entry (source folder : string) : Json :=
  JObj [("source", JStr source); ("folder", JStr folder)].

(** The bytes of the asset handler's JSON error object. *)
Definition internal_error_bytes : list Byte.byte :=
  list_byte_of_string (JSON_stringify (error_object "Internal Server Error")).

(** The responses the three handlers and the dispatcher can produce. *)
Inductive handler_response : Response → Prop :=
| hr_json j : handler_response (NextResponse_json j 200)
| hr_asset data :
    handler_response
      {| res_status := 200;
         res_headers := [("Content-Type", "image/png");
                         ("Content-Length", pretty (length data))];
         res_body := BodyBuffer data |}
| hr_invalid_type : handler_response (NextResponse_json (error_object "Invalid Type") 400)
| hr_method msg : handler_response (NextResponse_json (error_object msg) 405)
| hr_internal : handler_response (NextResponse_json (error_object "Internal Server Error") 500).

Definition json_bodied (r : Response) : Prop := ∃ j, res_body r = BodyJson j.

(** The status a handler answers with, if it answers. *)
Definition status_of (m : Eff Response) : option Z :=
  match outcome m with
  | Returned r => Some (res_status r)
  | Threw _ => None
  end.

(** The request announces a multipart body: it has a content-type header
    and that header starts with [multipart/form-data]. *)
Definition multipart_content_type (req : NextRequest) : Prop :=
  ∃ contentType, req_headers req !! "content-type" = Some contentType ∧
                 startsWith contentType "multipart/form-data" = true.

(** The path of the source file of the component [c] of a theme folder. *)
Definition component_path (folderPath c : string) : string :=
  NodePath.join_strings [folderPath; c; "index.html"].

(** Kinds of calls in a trace: calls to the document store and the upload
    transport, those of them that write, calls to the file system, and
    lines written to the error console. *)
Definition is_store_call (ev : Event) : bool :=
  match ev with
  | EvLoadData _ _ | EvUpdateData _ _ _ | EvUploadFiles _ => true
  | _ => false
  end.

Definition is_write_call (ev : Event) : bool :=
  match ev with
  | EvUpdateData _ _ _ | EvUploadFiles _ => true
  | _ => false
  end.

Definition is_fs_call (ev : Event) : bool :=
  match ev with
  | EvReadFile _ | EvReadFileUtf8 _ | EvReaddir _ => true
  | _ => false
  end.

Definition is_log (ev : Event) : bool :=
  match ev with
  | EvConsoleError _ _ => true
  | _ => false
  end.

(** The string holds no slash. *)
Fixpoint slash_free (s : string) : bool :=
  match s with
  | EmptyString => true
  | String c s' => negb (Ascii.eqb c "/"%char) && slash_free s'
  end.

(** A path segment that [normalizeString] keeps as it is. *)
Definition plain_segment (seg : string) : Prop :=
  seg ≠ "" ∧ seg ≠ "." ∧ seg ≠ ".." ∧ slash_free seg = true.

(** The shape of a handler run: calls of one kind, followed either by
    nothing, under a status other than 500, or by one line on the error
    console, under status 500. *)
Definition handler_run (kind : Event → bool) (m : Eff Response) : Prop :=
  ∃ calls log,
    trace m = (calls ++ log)%list ∧
    Forall (λ ev, kind ev = true) calls ∧
    ((log = [] ∧ ∃ st, status_of m = Some st ∧ st ≠ 500) ∨
     (∃ msg e, log = [EvConsoleError msg e] ∧ status_of m = Some 500)).

(** The property names every object inherits from [Object.prototype]:
    read on an object without an own property of that name, they give the
    inherited value, not undefined. *)
Definition Object_prototype_keys : list string :=
  ["constructor"; "__defineGetter__"; "__defineSetter__"; "hasOwnProperty";
   "__lookupGetter__"; "__lookupSetter__"; "isPrototypeOf"; "propertyIsEnumerable";
   "toString"; "valueOf"; "__proto__"; "toLocaleString"].

Create HintDb route.

Ltac eff_simpl :=
  cbn [mbind mret Eff_bind Eff_ret lift await try_catch console_error
       outcome trace fst snd app].

Ltac run_ok calls st :=
  exists calls, (@nil Event); split; [rewrite ?app_nil_r; reflexivity|];
  split; [repeat constructor|];
  left; split; [reflexivity|]; exists st; split; [reflexivity | discriminate].

Ltac run_failed calls :=
  exists calls; eexists; split; [reflexivity|];
  split; [repeat constructor|];
  right; do 2 eexists; split; reflexivity.

(** ** A concrete installation

    A small disk and document store to run the route on. *)

Module Sample.

Inductive node : Type :=
| File (content : string)
| Directory (entries : list string).

Definition root : string := "/srv/app/node_modules/destack".

Definition disk : list (string * node) :=
  [ ("/srv/app/node_modules/destack/themes/default",
     Directory ["banner1"; "footer1"; "index.ts"; ".hidden"]);
    ("/srv/app/node_modules/destack/themes/default/banner1/index.html",
     File "<section>banner</section>");
    ("/srv/app/node_modules/destack/themes/default/footer1/index.html",
     File "<footer>footer</footer>");
    ("/srv/app/node_modules/destack/themes/default/index.ts", File "export {}");
    ("/srv/app/node_modules/destack/themes/draft", Directory ["hero1"]);
    ("/srv/app/node_modules/destack/themes/draft/hero1", Directory []);
    ("/srv/app/node_modules/destack/logo.png", File "PNG-logo");
    ("/srv/app/node_modules/secret.png", File "PNG-secret") ].

Fixpoint find (p : string) (d : list (string * node)) : option node :=
  match d with
  | [] => None
  | (q, n) :: rest => if (q =? p)%string then Some n else find p rest
  end.

Definition readText (p : string) : Outcome string :=
  match find p disk with
  | Some (File content) => Returned content
  | Some (Directory _) => Threw (SystemError "EISDIR" p)
  | None => Threw (SystemError "ENOENT" p)
  end.

Definition readBytes (p : string) : Outcome (list Byte.byte) :=
  match readText p with
  | Returned content => Returned (list_byte_of_string content)
  | Threw e => Threw e
  end.

Definition listDir (p : string) : Outcome (list string) :=
  match find p disk with
  | Some (Directory entries) => Returned entries
  | Some (File _) => Threw (SystemError "ENOTDIR" p)
  | None => Threw (SystemError "ENOENT" p)
  end.

(** The store holds one document, at route [home] in format [html]; it
    refuses to save without a route. *)
Definition load (route : option string) (ext : string) : Outcome Json :=
  match route with
  | Some r =>
      if (r =? "home")%string && (ext =? "html")%string
      then Returned (JStr "<main>home</main>")
      else Threw (LibraryError "no such document")
  | None => Threw (TypeError "route is undefined")
  end.

Definition save (route : option string) (ext : string) (body : option string)
    : Outcome unit :=
  match route with
  | Some _ => Returned tt
  | None => Threw (TypeError "route is undefined")
  end.

Definition upload (req : NextRequest) : Outcome (list string) :=
  Returned ["/uploaded/photo.png"].

Definition env : Env :=
  {| package_dir := root;
     process_cwd := "/srv/app";
     loadData := load;
     updateData := save;
     uploadFiles := upload;
     fs_readFile := readBytes;
     fs_readFile_utf8 := readText;
     fs_readdir := listDir;
     earliest_rejection := λ _, 0%nat;
     JSON_parse := λ _, Threw (SyntaxError "Unexpected token") |}.

(** The same installation as the bundler reports it from inside a build:
    the package under the [(rsc)] layer, the process in the build folder. *)
Definition layered : Env :=
  {| package_dir := "(rsc)/node_modules/destack";
     process_cwd := "/srv/app/.next";
     loadData := load;
     updateData := save;
     uploadFiles := upload;
     fs_readFile := readBytes;
     fs_readFile_utf8 := readText;
     fs_readdir := listDir;
     earliest_rejection := λ _, 0%nat;
     JSON_parse := λ _, Threw (SyntaxError "Unexpected token") |}.


Definition request (method : string) (query : list (string * string))
    (headers : list (string * string)) (body : option string) : NextRequest :=
  {| req_method := method;
     req_searchParams := query;
     req_headers := list_to_map headers;
     req_body := body |}.

End Sample.

(** ** The runtime pieces on known inputs *)

Example join_drops_dot_dot :
  NodePath.join [Some "/foo"; Some "bar"; Some "baz/asdf"; Some "quux"; Some ".."]
  = Returned "/foo/bar/baz/asdf".
Proof. reflexivity. Qed.

Example join_climbs_above_relative_start :
  NodePath.join [Some "a/b"; Some "../../../c/"; Some "./d//e/"] = Returned "../c/d/e/".
Proof. reflexivity. Qed.

Example join_stops_at_the_root :
  NodePath.join [Some "/pkg"; Some "../../.."] = Returned "/".
Proof. reflexivity. Qed.

Example join_keeps_an_absolute_argument_inside :
  NodePath.join [Some "/pkg"; Some "/etc/passwd"] = Returned "/pkg/etc/passwd".
Proof. reflexivity. Qed.

Example join_of_nothing : NodePath.join [Some ""; Some ""] = Returned ".".
Proof. reflexivity. Qed.

Example package_path_under_a_layer :
  getPackagePath {| package_dir := "(rsc)/node_modules/destack";
                    process_cwd := "/srv/app/.next";
                    loadData := Sample.load; updateData := Sample.save;
                    uploadFiles := Sample.upload; fs_readFile := Sample.readBytes;
                    fs_readFile_utf8 := Sample.readText; fs_readdir := Sample.listDir;
                    earliest_rejection := λ _, 0%nat;
                    JSON_parse := λ _, Threw (SyntaxError "Unexpected token") |}
  = "/srv/app/(rsc)/node_modules/destack".
Proof. reflexivity. Qed.

Example join_rejects_undefined :
  NodePath.join [Some "/pkg"; None] = Threw (TypeError "ERR_INVALID_ARG_TYPE").
Proof. reflexivity. Qed.

Example stringify_error_object :
  JSON_stringify (error_object "Internal Server Error")
  = "{" +:+ dquote +:+ "error" +:+ dquote +:+ ":" +:+ dquote
        +:+ "Internal Server Error" +:+ dquote +:+ "}".
Proof. reflexivity. Qed.

Example stringify_escapes :
  JSON_stringify (JArr [JStr ("a" +:+ dquote +:+ "\"); JNull; JBool true; JNum "-3"; JObj []])
  = "[" +:+ dquote +:+ "a\" +:+ dquote +:+ "\\" +:+ dquote +:+ ",null,true,-3,{}]".
Proof. reflexivity. Qed.

Example ToString_of_values :
  ToString (JObj [("error", JStr "x")]) = Returned "[object Object]" ∧
  ToString (JArr [JStr "a"; JNull; JArr [JNum "1"; JNum "1e+21"]]) = Returned "a,,1,1e+21" ∧
  ToString (JStr "<p/>") = Returned "<p/>" ∧
  ToString (JObj [("toString", JStr "x")]) =
    Threw (TypeError "Cannot convert object to primitive value") ∧
  ToString (JArr [JStr "a"; JObj [("toString", JNull)]]) =
    Threw (TypeError "Cannot convert object to primitive value").
Proof. repeat split. Qed.

Example fromEntries_last_wins :
  fromEntries [("type", "data"); ("type", "asset")] !! "type" = Some "asset".
Proof. reflexivity. Qed.

(** ** Proof support *)

Lemma method_GET req : req_method req = "GET" → (req_method req =? "GET")%string = true.
Proof. intros ->. reflexivity. Qed.

Lemma strict_eq_true a s : strict_eq a s = true ↔ a = Some s.
Proof.
  destruct a as [t|]; cbn.
  - rewrite String.eqb_eq. split; [intros -> | intros [= ->]]; reflexivity.
  - split; discriminate.
Qed.

(** The dispatcher is the handler it selects: its own [catch] clause is
    never entered. *)
Lemma handleEditorNew_dispatch env req (query : gmap string string) :
  handleEditorNew env req query =
    if strict_eq (query !! "type") "data" then handleDataNew env req
    else if strict_eq (query !! "type") "asset" then handleAssetNew env req
    else if strict_eq (query !! "type") "theme" then handleThemeNew env req
    else ([], Returned (NextResponse_json (error_object "Invalid Type") 400)).
Proof.
  unfold handleEditorNew. eff_simpl.
  destruct (strict_eq (query !! "type") "data"); [destruct (handleDataNew env req); reflexivity|].
  destruct (strict_eq (query !! "type") "asset"); [destruct (handleAssetNew env req); reflexivity|].
  destruct (strict_eq (query !! "type") "theme"); [destruct (handleThemeNew env req); reflexivity|].
  reflexivity.
Qed.

(** *** The asset handler, case by case *)

Lemma handleAssetNew_GET env req :
  req_method req = "GET" →
  handleAssetNew env req =
    match resolveAsset env req with
    | Threw e =>
        ([EvConsoleError "Error handling asset in handleAssetNew:" e],
         Returned (internal_error))
    | Returned p =>
        match fs_readFile env p with
        | Returned data =>
            ([EvReadFile p],
             Returned {| res_status := 200;
                         res_headers := [("Content-Type", "image/png");
                                         ("Content-Length", pretty (length data))];
                         res_body := BodyBuffer data |})
        | Threw e =>
            ([EvReadFile p; EvConsoleError "Error handling asset in handleAssetNew:" e],
             Returned (internal_error))
        end
    end.
Proof.
  intros Hm. unfold handleAssetNew, resolveAsset.
  rewrite (method_GET _ Hm). cbv zeta.
  destruct (NodePath.join _) as [p|e]; eff_simpl; [|reflexivity].
  destruct (fs_readFile env p); reflexivity.
Qed.

Lemma handleAssetNew_other env req :
  req_method req ≠ "GET" →
  handleAssetNew env req =
    ([], Returned (NextResponse_json (error_object "Method Not Allowed") 405)).
Proof.
  intros Hm. unfold handleAssetNew.
  apply String.eqb_neq in Hm. rewrite Hm. reflexivity.
Qed.

(** *** The theme handler, case by case *)

Lemma read_component_eq env folderPath c :
  outcome (read_component env folderPath c) =
    match component_source env folderPath c with
    | Returned source => Returned (component_entry source c)
    | Threw e => Threw e
    end.
Proof.
  unfold read_component, component_source.
  destruct (NodePath.join _) as [p|e]; eff_simpl; [|reflexivity].
  destruct (fs_readFile_utf8 env p); reflexivity.
Qed.

Lemma settle_all_ok {A} (ps : list (Eff A)) (vs : list A) :
  Forall2 (λ p v, outcome p = Returned v) ps vs →
  snd (settle_all ps) = (vs, []).
Proof.
  induction 1 as [|[t r] v ps vs Hp _ IH]; [reflexivity|].
  cbn in Hp. subst r. cbn [settle_all].
  destruct (settle_all ps) as [t' [vs' errs]]. cbn in IH. injection IH as -> ->.
  reflexivity.
Qed.

Lemma Promise_all_outcome_ok {A} earliest (ps : list (Eff A)) (vs : list A) :
  Forall2 (λ p v, outcome p = Returned v) ps vs →
  outcome (Promise_all earliest ps) = Returned vs.
Proof.
  intros H. apply settle_all_ok in H. unfold Promise_all.
  destruct (settle_all ps) as [t [vs' errs]]. cbn in H. injection H as -> ->.
  reflexivity.
Qed.

Lemma Promise_all_components env folderPath (src : string → string) names :
  (∀ c, In c names → component_source env folderPath c = Returned (src c)) →
  outcome (Promise_all (earliest_rejection env)
             (map (read_component env folderPath) names)) =
    Returned (map (λ c, component_entry (src c) c) names).
Proof.
  intros Hsrc. apply Promise_all_outcome_ok.
  induction names as [|c names IH]; cbn [map]; constructor.
  - rewrite read_component_eq, (Hsrc c); [reflexivity | left; reflexivity].
  - apply IH. intros c' Hc'. apply Hsrc. right. exact Hc'.
Qed.

Lemma handleThemeNew_listing env req folderPath f (src : string → string) :
  req_method req = "GET" →
  themeFolder env req = Returned folderPath →
  fs_readdir env folderPath = Returned f →
  (∀ c, In c (List.filter is_component f) →
        component_source env folderPath c = Returned (src c)) →
  outcome (handleThemeNew env req) =
    Returned (NextResponse_json
                (JArr (map (λ c, component_entry (src c) c) (List.filter is_component f)))
                200).
Proof.
  intros Hm Hfolder Hdir Hsrc. unfold handleThemeNew, themeFolder in *.
  rewrite (method_GET _ Hm). cbv zeta. rewrite Hfolder. eff_simpl.
  rewrite Hdir. eff_simpl.
  pose proof (Promise_all_components env folderPath src _ Hsrc) as Hall.
  destruct (Promise_all _ _) as [t r]. cbn in Hall. subst r. reflexivity.
Qed.

Lemma handleThemeNew_readdir_throws env req folderPath e :
  req_method req = "GET" →
  themeFolder env req = Returned folderPath →
  fs_readdir env folderPath = Threw e →
  handleThemeNew env req =
    ([EvReaddir folderPath; EvConsoleError "Error handling theme in handleThemeNew:" e],
     Returned (internal_error)).
Proof.
  intros Hm Hfolder Hdir. unfold handleThemeNew, themeFolder in *.
  rewrite (method_GET _ Hm). cbv zeta. rewrite Hfolder. eff_simpl.
  rewrite Hdir. reflexivity.
Qed.

Lemma handleThemeNew_other env req :
  req_method req ≠ "GET" →
  handleThemeNew env req =
    ([], Returned (NextResponse_json (error_object "Not allowed") 405)).
Proof.
  intros Hm. unfold handleThemeNew.
  apply String.eqb_neq in Hm. rewrite Hm. reflexivity.
Qed.

(** *** The data handler, case by case *)

Lemma handleDataNew_GET env req :
  req_method req = "GET" →
  let route := getQueryParams req !! "path" in
  let ext := or_else (getQueryParams req !! "ext") "html" in
  handleDataNew env req =
    match loadData env route ext with
    | Returned data => ([EvLoadData route ext], Returned (NextResponse_json data 200))
    | Threw e =>
        ([EvLoadData route ext; EvConsoleError "Error handling data in handleDataNew:" e],
         Returned (internal_error))
    end.
Proof.
  intros Hm route ext. unfold handleDataNew.
  rewrite (method_GET _ Hm). cbv zeta. fold route ext. eff_simpl.
  destruct (loadData env route ext); reflexivity.
Qed.

Lemma handleDataNew_POST_update env req :
  req_method req = "POST" →
  isMultiPart req = false →
  let route := getQueryParams req !! "path" in
  let ext := or_else (getQueryParams req !! "ext") "html" in
  handleDataNew env req =
    match updateData env route ext (req_body req) with
    | Returned _ =>
        ([EvUpdateData route ext (req_body req)], Returned (NextResponse_json (JObj []) 200))
    | Threw e =>
        ([EvUpdateData route ext (req_body req);
          EvConsoleError "Error handling data in handleDataNew:" e],
         Returned (internal_error))
    end.
Proof.
  intros Hm Hmp route ext. unfold handleDataNew.
  rewrite Hm, Hmp. cbv zeta.
  change (("POST" =? "GET")%string) with false.
  change (("POST" =? "POST")%string) with true.
  cbv iota. fold route ext. eff_simpl.
  destruct (updateData env route ext (req_body req)); reflexivity.
Qed.

Lemma handleDataNew_POST_upload env req :
  req_method req = "POST" →
  isMultiPart req = true →
  handleDataNew env req =
    match uploadFiles env req with
    | Returned urls =>
        ([EvUploadFiles req], Returned (NextResponse_json (JArr (map JStr urls)) 200))
    | Threw e =>
        ([EvUploadFiles req; EvConsoleError "Error handling data in handleDataNew:" e],
         Returned (internal_error))
    end.
Proof.
  intros Hm Hmp. unfold handleDataNew.
  rewrite Hm, Hmp. cbv zeta.
  change (("POST" =? "GET")%string) with false.
  change (("POST" =? "POST")%string) with true.
  cbv iota. eff_simpl.
  destruct (uploadFiles env req); reflexivity.
Qed.

Lemma handleDataNew_other env req :
  req_method req ≠ "GET" →
  req_method req ≠ "POST" →
  handleDataNew env req =
    ([], Returned (NextResponse_json (error_object "Method Not Allowed") 405)).
Proof.
  intros Hg Hp. unfold handleDataNew.
  apply String.eqb_neq in Hg, Hp. rewrite Hg, Hp. reflexivity.
Qed.

(** *** No handler throws, and what their responses look like *)

#[local] Hint Constructors handler_response : route.

Lemma NextResponse_json_bodied j st : json_bodied (NextResponse_json j st).
Proof. exists j. reflexivity. Qed.

#[local] Hint Resolve NextResponse_json_bodied : route.
#[local] Hint Unfold internal_error : route.

Lemma handleDataNew_returns env req :
  ∃ t r, handleDataNew env req = (t, Returned r) ∧ handler_response r ∧ json_bodied r.
Proof.
  destruct (String.eqb_spec (req_method req) "GET") as [Hg|Hg].
  { pose proof (handleDataNew_GET env req Hg) as H. cbv zeta in H. rewrite H.
    destruct (loadData _ _ _); do 2 eexists; unfold internal_error; eauto with route. }
  destruct (String.eqb_spec (req_method req) "POST") as [Hp|Hp].
  - destruct (isMultiPart req) eqn:Hmp.
    + rewrite (handleDataNew_POST_upload env req Hp Hmp).
      destruct (uploadFiles _ _); do 2 eexists; unfold internal_error; eauto with route.
    + pose proof (handleDataNew_POST_update env req Hp Hmp) as H. cbv zeta in H. rewrite H.
      destruct (updateData _ _ _ _); do 2 eexists; unfold internal_error; eauto with route.
  - rewrite (handleDataNew_other env req Hg Hp). do 2 eexists; eauto with route.
Qed.

Lemma handleAssetNew_returns env req :
  ∃ t r, handleAssetNew env req = (t, Returned r) ∧ handler_response r.
Proof.
  destruct (String.eqb_spec (req_method req) "GET") as [Hg|Hg].
  - rewrite (handleAssetNew_GET env req Hg).
    destruct (resolveAsset env req) as [p|e];
      [destruct (fs_readFile env p)|]; do 2 eexists; unfold internal_error; eauto with route.
  - rewrite (handleAssetNew_other env req Hg). do 2 eexists; eauto with route.
Qed.

Lemma handleThemeNew_returns env req :
  ∃ t r, handleThemeNew env req = (t, Returned r) ∧ handler_response r ∧ json_bodied r.
Proof.
  destruct (String.eqb_spec (req_method req) "GET") as [Hg|Hg].
  - unfold handleThemeNew. rewrite (method_GET _ Hg). cbv zeta.
    destruct (NodePath.join _) as [folderPath|e]; eff_simpl;
      [|do 2 eexists; unfold internal_error; eauto with route].
    destruct (fs_readdir env folderPath) as [f|e]; eff_simpl;
      [|do 2 eexists; unfold internal_error; eauto with route].
    destruct (Promise_all _ _) as [t [components|e]]; eff_simpl;
      do 2 eexists; unfold internal_error; eauto with route.
  - rewrite (handleThemeNew_other env req Hg). do 2 eexists; eauto with route.
Qed.

Lemma handleEditorNew_returns env req query :
  ∃ t r, handleEditorNew env req query = (t, Returned r) ∧ handler_response r ∧
         (strict_eq (query !! "type") "asset" = false → json_bodied r).
Proof.
  rewrite handleEditorNew_dispatch.
  destruct (strict_eq (query !! "type") "data") eqn:Hd.
  { destruct (handleDataNew_returns env req) as (t & r & -> & Hr & Hj). eauto 6. }
  destruct (strict_eq (query !! "type") "asset") eqn:Ha.
  { destruct (handleAssetNew_returns env req) as (t & r & -> & Hr).
    do 2 eexists; split; [reflexivity|]. split; [exact Hr | discriminate]. }
  destruct (strict_eq (query !! "type") "theme") eqn:Ht.
  { destruct (handleThemeNew_returns env req) as (t & r & -> & Hr & Hj). eauto 6. }
  do 2 eexists; split; [reflexivity|]. split; eauto with route.
Qed.

(** *** Statuses inside the route

    Each handler answers 200 or 500 to a method it supports and 405 to
    any other; the dispatcher adds 400 for an unknown type. *)

Lemma handleDataNew_status env req :
  ((req_method req = "GET" ∨ req_method req = "POST") ∧
   (status_of (handleDataNew env req) = Some 200 ∨
    status_of (handleDataNew env req) = Some 500)) ∨
  (req_method req ≠ "GET" ∧ req_method req ≠ "POST" ∧
   status_of (handleDataNew env req) = Some 405).
Proof.
  destruct (String.eqb_spec (req_method req) "GET") as [Hg|Hg].
  { left. split; [left; exact Hg|].
    pose proof (handleDataNew_GET env req Hg) as H. cbv zeta in H. rewrite H.
    destruct (loadData _ _ _); [left | right]; reflexivity. }
  destruct (String.eqb_spec (req_method req) "POST") as [Hp|Hp].
  - left. split; [right; exact Hp|].
    destruct (isMultiPart req) eqn:Hmp.
    + rewrite (handleDataNew_POST_upload env req Hp Hmp).
      destruct (uploadFiles _ _); [left | right]; reflexivity.
    + pose proof (handleDataNew_POST_update env req Hp Hmp) as H. cbv zeta in H. rewrite H.
      destruct (updateData _ _ _ _); [left | right]; reflexivity.
  - right. rewrite (handleDataNew_other env req Hg Hp). auto.
Qed.

Lemma handleAssetNew_status env req :
  (req_method req = "GET" ∧
   (status_of (handleAssetNew env req) = Some 200 ∨
    status_of (handleAssetNew env req) = Some 500)) ∨
  (req_method req ≠ "GET" ∧ status_of (handleAssetNew env req) = Some 405).
Proof.
  destruct (String.eqb_spec (req_method req) "GET") as [Hg|Hg].
  - left. split; [exact Hg|]. rewrite (handleAssetNew_GET env req Hg).
    destruct (resolveAsset env req) as [p|e]; [destruct (fs_readFile env p)|];
      (left; reflexivity) || (right; reflexivity).
  - right. rewrite (handleAssetNew_other env req Hg). auto.
Qed.

Lemma handleThemeNew_status env req :
  (req_method req = "GET" ∧
   (status_of (handleThemeNew env req) = Some 200 ∨
    status_of (handleThemeNew env req) = Some 500)) ∨
  (req_method req ≠ "GET" ∧ status_of (handleThemeNew env req) = Some 405).
Proof.
  destruct (String.eqb_spec (req_method req) "GET") as [Hg|Hg].
  - left. split; [exact Hg|].
    unfold handleThemeNew. rewrite (method_GET _ Hg). cbv zeta.
    destruct (NodePath.join _) as [folderPath|e]; eff_simpl; [|right; reflexivity].
    destruct (fs_readdir env folderPath) as [f|e]; eff_simpl; [|right; reflexivity].
    destruct (Promise_all _ _) as [t [components|e]]; eff_simpl;
      (left; reflexivity) || (right; reflexivity).
  - right. rewrite (handleThemeNew_other env req Hg). auto.
Qed.

(** Inside the route a 4xx status stands for a client error only: 400
    exactly for an unknown type, 405 only for a method other than GET. *)
Lemma handleEditorNew_status_4xx env req (query : gmap string string) :
  (status_of (handleEditorNew env req query) = Some 400 ↔
   query !! "type" ≠ Some "data" ∧ query !! "type" ≠ Some "asset" ∧
   query !! "type" ≠ Some "theme") ∧
  (status_of (handleEditorNew env req query) = Some 405 → req_method req ≠ "GET").
Proof.
  rewrite handleEditorNew_dispatch.
  destruct (strict_eq (query !! "type") "data") eqn:Ed.
  { apply strict_eq_true in Ed.
    destruct (handleDataNew_status env req) as [[Hs [-> | ->]] | (Hg & _ & ->)];
      (split; [split; [discriminate | intros (H & _); contradiction]|]);
      try discriminate; auto. }
  destruct (strict_eq (query !! "type") "asset") eqn:Ea.
  { apply strict_eq_true in Ea.
    destruct (handleAssetNew_status env req) as [[Hs [-> | ->]] | (Hg & ->)];
      (split; [split; [discriminate | intros (_ & H & _); contradiction]|]);
      try discriminate; auto. }
  destruct (strict_eq (query !! "type") "theme") eqn:Et.
  { apply strict_eq_true in Et.
    destruct (handleThemeNew_status env req) as [[Hs [-> | ->]] | (Hg & ->)];
      (split; [split; [discriminate | intros (_ & _ & H); contradiction]|]);
      try discriminate; auto. }
  split; [|discriminate]. split; [intros _|reflexivity].
  repeat split; intros H; apply strict_eq_true in H; congruence.
Qed.

(** The exported handlers answer every request. [GET] answers with status
    200 unless the coercion of the parsed body to a response body throws:
    only then is its [catch] clause entered, one line logged and the
    route's own 500 sent. [POST] always answers with status 200. *)
Lemma GET_run env req :
  ∃ t r,
    handleEditorNew env req (getQueryParams req) = (t, Returned r) ∧
    ((∃ r', GET env req = (t, Returned r') ∧ res_status r' = 200) ∨
     (∃ j e,
        strict_eq (getQueryParams req !! "type") "theme" = false ∧
        strict_eq (getQueryParams req !! "type") "asset" = false ∧
        res_body r = BodyJson j ∧
        BodyInit_of_value j = Threw e ∧
        GET env req =
          ((t ++ [EvConsoleError "Error handling GET request:" e])%list,
           Returned route_failure))).
Proof.
  unfold GET. cbv zeta.
  destruct (handleEditorNew_returns env req (getQueryParams req))
    as (t & r & -> & _ & Hj). exists t, r. split; [reflexivity|]. eff_simpl.
  destruct (strict_eq (getQueryParams req !! "type") "theme") eqn:Ht.
  - apply strict_eq_true in Ht. rewrite Ht in Hj.
    destruct (Hj eq_refl) as [j Hb]. unfold Response_json. rewrite Hb. eff_simpl.
    rewrite app_nil_r. left. eexists. split; reflexivity.
  - destruct (strict_eq (getQueryParams req !! "type") "asset") eqn:Ha.
    + eff_simpl. rewrite app_nil_r. left. eexists. split; reflexivity.
    + destruct (Hj eq_refl) as [j Hb]. unfold Response_json. rewrite Hb. eff_simpl.
      destruct (BodyInit_of_value j) as [body|e] eqn:Hbody; eff_simpl.
      * rewrite app_nil_r. left. eexists. split; reflexivity.
      * rewrite app_nil_r. right. exists j, e. repeat split; assumption.
Qed.

Lemma GET_status_200_or_500 env req :
  ∃ t r, GET env req = (t, Returned r) ∧ (res_status r = 200 ∨ res_status r = 500).
Proof.
  destruct (GET_run env req) as (t & r & _ & [(r' & -> & Hs) | (j & e & _ & _ & _ & _ & ->)]).
  - eauto.
  - do 2 eexists. split; [reflexivity|]. right. reflexivity.
Qed.

Lemma POST_status_200 env req :
  ∃ t r, POST env req = (t, Returned r) ∧ res_status r = 200.
Proof.
  unfold POST. cbv zeta.
  destruct (handleEditorNew_returns env req (getQueryParams req))
    as (t & r & -> & _ & Hj). eff_simpl.
  destruct (strict_eq (getQueryParams req !! "type") "theme") eqn:Ht.
  - apply strict_eq_true in Ht. rewrite Ht in Hj.
    destruct (Hj eq_refl) as [j Hb]. unfold Response_json. rewrite Hb. eff_simpl.
    do 2 eexists; split; reflexivity.
  - eff_simpl. do 2 eexists; split; reflexivity.
Qed.

Lemma handleEditorNew_asset env req query :
  query !! "type" = Some "asset" →
  handleEditorNew env req query = handleAssetNew env req.
Proof. intros H. rewrite handleEditorNew_dispatch, H. reflexivity. Qed.

Lemma handleEditorNew_theme env req query :
  query !! "type" = Some "theme" →
  handleEditorNew env req query = handleThemeNew env req.
Proof. intros H. rewrite handleEditorNew_dispatch, H. reflexivity. Qed.

(** For a theme request [GET] parses the handler's JSON body and sends it
    again with [NextResponse.json], under status 200. *)
Lemma GET_theme env req t r j :
  getQueryParams req !! "type" = Some "theme" →
  handleThemeNew env req = (t, Returned r) →
  res_body r = BodyJson j →
  GET env req = (t, Returned (NextResponse_json j 200)).
Proof.
  intros Hty Hr Hb. unfold GET. cbv zeta.
  rewrite (handleEditorNew_theme _ _ _ Hty), Hr, Hty. eff_simpl.
  unfold Response_json. rewrite Hb.
  change (strict_eq (Some "theme") "theme") with true. eff_simpl.
  rewrite app_nil_r. reflexivity.
Qed.

(** For an asset request [GET] copies the bytes of whatever the asset
    handler answered into a fresh response with status 200 and the single
    header [Content-Type: image/png]. *)
Lemma GET_asset env req t r :
  getQueryParams req !! "type" = Some "asset" →
  handleAssetNew env req = (t, Returned r) →
  GET env req =
    (t, Returned {| res_status := 200;
                    res_headers := [("Content-Type", "image/png")];
                    res_body := BodyBuffer (body_bytes (res_body r)) |}).
Proof.
  intros Hty Hr. unfold GET. cbv zeta.
  rewrite (handleEditorNew_asset _ _ _ Hty), Hr, Hty.
  change (strict_eq (Some "asset") "theme") with false.
  change (strict_eq (Some "asset") "asset") with true. eff_simpl.
  rewrite app_nil_r. reflexivity.
Qed.

(** The listing filter keeps an entry exactly when it is not named
    [index.ts] and does not start with a dot. *)
Lemma is_component_spec c :
  is_component c = true ↔ c ≠ "index.ts" ∧ startsWith c "." = false.
Proof.
  unfold is_component. rewrite andb_true_iff, !negb_true_iff, String.eqb_neq.
  reflexivity.
Qed.

(** ** The claims *)

(** C1, as the code has it: an asset request whose [path] resolves outside
    the package root is not rejected. The handler reads the resolved file:
    when the read succeeds it answers 200 with that file's bytes, and when
    the read fails it logs the error and answers with the generic 500
    error object. *)
Theorem asset_outside_root_is_read env req resolved :
  req_method req = "GET" →
  resolveAsset env req = Returned resolved →
  within_root (getPackagePath env) resolved = false →
  handleAssetNew env req =
    match fs_readFile env resolved with
    | Returned data =>
        ([EvReadFile resolved],
         Returned {| res_status := 200;
                     res_headers := [("Content-Type", "image/png");
                                     ("Content-Length", pretty (length data))];
                     res_body := BodyBuffer data |})
    | Threw e =>
        ([EvReadFile resolved;
          EvConsoleError "Error handling asset in handleAssetNew:" e],
         Returned (NextResponse_json (error_object "Internal Server Error") 500))
    end.
Proof.
  intros Hm Hres _. rewrite (handleAssetNew_GET env req Hm), Hres. reflexivity.
Qed.

Lemma asset_outside_root_is_read_witness :
  let req := Sample.request "GET" [("type", "asset"); ("path", "../../etc/hosts")] [] None in
  within_root (getPackagePath Sample.env) "/srv/app/etc/hosts" = false ∧
  handleAssetNew Sample.env req =
    ([EvReadFile "/srv/app/etc/hosts";
      EvConsoleError "Error handling asset in handleAssetNew:"
        (SystemError "ENOENT" "/srv/app/etc/hosts")],
     Returned (NextResponse_json (error_object "Internal Server Error") 500)).
Proof.
  split; [reflexivity|].
  exact (asset_outside_root_is_read Sample.env
           (Sample.request "GET" [("type", "asset"); ("path", "../../etc/hosts")] [] None)
           "/srv/app/etc/hosts" eq_refl eq_refl eq_refl).
Defined.

(** C1, refuted as stated: with the package root at
    [/srv/app/node_modules/destack], the request [path=../secret.png]
    resolves to [/srv/app/node_modules/secret.png], outside the root, and
    both the asset handler and the exported [GET] answer 200 with the bytes
    of that file. *)
Lemma asset_traversal_streams_file :
  let req := Sample.request "GET" [("type", "asset"); ("path", "../secret.png")] [] None in
  resolveAsset Sample.env req = Returned "/srv/app/node_modules/secret.png" ∧
  within_root (getPackagePath Sample.env) "/srv/app/node_modules/secret.png" = false ∧
  fs_readFile Sample.env "/srv/app/node_modules/secret.png" =
    Returned (list_byte_of_string "PNG-secret") ∧
  handleAssetNew Sample.env req =
    ([EvReadFile "/srv/app/node_modules/secret.png"],
     Returned {| res_status := 200;
                 res_headers := [("Content-Type", "image/png"); ("Content-Length", "10")];
                 res_body := BodyBuffer (list_byte_of_string "PNG-secret") |}) ∧
  GET Sample.env req =
    ([EvReadFile "/srv/app/node_modules/secret.png"],
     Returned {| res_status := 200;
                 res_headers := [("Content-Type", "image/png")];
                 res_body := BodyBuffer (list_byte_of_string "PNG-secret") |}).
Proof. vm_compute. repeat split. Qed.

Lemma filter_Permutation_bool {A} (keep : A → bool) (l l' : list A) :
  l ≡ₚ l' → List.filter keep l ≡ₚ List.filter keep l'.
Proof.
  induction 1 as [|x l l' _ IH|x y l|l l' l'' _ IH1 _ IH2]; cbn.
  - constructor.
  - destruct (keep x); [constructor|]; exact IH.
  - destruct (keep x), (keep y); try reflexivity. constructor.
  - etransitivity; eassumption.
Qed.

(** C2: when the theme directory holds exactly the entries [banner1],
    [footer1], [index.ts] and [.hidden] (in whatever order the listing
    gives them) and the sources of the two folders can be read, the theme
    handler answers with exactly two entries: the source of [banner1]
    paired with [banner1] and the source of [footer1] paired with
    [footer1]. [index.ts] and [.hidden] are left out. The exported [GET]
    relays the same listing. *)
Theorem theme_listing_scenario env req folderPath f s1 s2 :
  req_method req = "GET" →
  themeFolder env req = Returned folderPath →
  fs_readdir env folderPath = Returned f →
  f ≡ₚ ["banner1"; "footer1"; "index.ts"; ".hidden"] →
  component_source env folderPath "banner1" = Returned s1 →
  component_source env folderPath "footer1" = Returned s2 →
  ∃ entries,
    outcome (handleThemeNew env req) = Returned (NextResponse_json (JArr entries) 200) ∧
    entries ≡ₚ [component_entry s1 "banner1"; component_entry s2 "footer1"] ∧
    length entries = 2%nat ∧
    (getQueryParams req !! "type" = Some "theme" →
     outcome (GET env req) = Returned (NextResponse_json (JArr entries) 200)).
Proof.
  intros Hm Hfolder Hdir Hperm H1 H2.
  set (src := λ c : string, if (c =? "banner1")%string then s1 else s2).
  set (entries := map (λ c, component_entry (src c) c) (List.filter is_component f)).
  assert (Hkept : List.filter is_component f ≡ₚ ["banner1"; "footer1"])
    by exact (filter_Permutation_bool is_component _ _ Hperm).
  assert (Hentries : entries ≡ₚ [component_entry s1 "banner1"; component_entry s2 "footer1"])
    by exact (Permutation_map (λ c, component_entry (src c) c) Hkept).
  assert (Hin : outcome (handleThemeNew env req) =
                Returned (NextResponse_json (JArr entries) 200)).
  { apply (handleThemeNew_listing env req folderPath f src Hm Hfolder Hdir).
    intros c Hc. apply (Permutation_in _ Hkept) in Hc.
    destruct Hc as [<-|[<-|[]]]; assumption. }
  exists entries. split; [exact Hin|]. split; [exact Hentries|].
  split; [exact (Permutation_length Hentries)|].
  intros Hty.
  destruct (handleThemeNew env req) as [t o] eqn:Hth. cbn in Hin. subst o.
  rewrite (GET_theme env req t _ (JArr entries) Hty Hth eq_refl). reflexivity.
Qed.

Lemma theme_listing_scenario_witness :
  let req := Sample.request "GET" [("type", "theme"); ("name", "default")] [] None in
  ∃ entries,
    outcome (handleThemeNew Sample.env req) =
      Returned (NextResponse_json (JArr entries) 200) ∧
    entries ≡ₚ [component_entry "<section>banner</section>" "banner1";
                component_entry "<footer>footer</footer>" "footer1"] ∧
    length entries = 2%nat ∧
    (getQueryParams req !! "type" = Some "theme" →
     outcome (GET Sample.env req) = Returned (NextResponse_json (JArr entries) 200)).
Proof.
  exact (theme_listing_scenario Sample.env
           (Sample.request "GET" [("type", "theme"); ("name", "default")] [] None)
           "/srv/app/node_modules/destack/themes/default"
           ["banner1"; "footer1"; "index.ts"; ".hidden"]
           "<section>banner</section>" "<footer>footer</footer>"
           eq_refl eq_refl eq_refl (Permutation_refl _) eq_refl eq_refl).
Defined.

(** C3: loading a theme whose directory does not exist fails. The listing
    of the directory throws the not-found error, the handler logs it and
    answers with the generic 500 error object; no listing is produced. *)
Theorem theme_missing_directory_fails env req folderPath :
  req_method req = "GET" →
  themeFolder env req = Returned folderPath →
  fs_readdir env folderPath = Threw (SystemError "ENOENT" folderPath) →
  handleThemeNew env req =
    ([EvReaddir folderPath;
      EvConsoleError "Error handling theme in handleThemeNew:"
        (SystemError "ENOENT" folderPath)],
     Returned (NextResponse_json (error_object "Internal Server Error") 500)) ∧
  status_of (handleThemeNew env req) = Some 500.
Proof.
  intros Hm Hfolder Hdir.
  rewrite (handleThemeNew_readdir_throws env req folderPath _ Hm Hfolder Hdir).
  split; reflexivity.
Qed.

Lemma theme_missing_directory_fails_witness :
  let req := Sample.request "GET" [("type", "theme"); ("name", "missing")] [] None in
  handleThemeNew Sample.env req =
    ([EvReaddir "/srv/app/node_modules/destack/themes/missing";
      EvConsoleError "Error handling theme in handleThemeNew:"
        (SystemError "ENOENT" "/srv/app/node_modules/destack/themes/missing")],
     Returned (NextResponse_json (error_object "Internal Server Error") 500)) ∧
  status_of (handleThemeNew Sample.env req) = Some 500.
Proof.
  exact (theme_missing_directory_fails Sample.env
           (Sample.request "GET" [("type", "theme"); ("name", "missing")] [] None)
           "/srv/app/node_modules/destack/themes/missing" eq_refl eq_refl eq_refl).
Defined.

(** C4, evaluated where it fails. The theme [missing] has no directory:
    the theme handler catches the error and answers 500, but [GET] parses
    that body and sends it under status 200. A data update without a route
    makes [updateData] throw: the data handler answers 500, but [POST]
    serialises the response object itself and sends the empty object under
    status 200. An unknown type is answered 400 by the dispatcher, but
    [GET] sends the string coercion of the parsed error object under
    status 200. In none of these cases does the client see the status the
    handler chose. *)
Theorem boundary_failure_answers_200 :
  let missing := Sample.request "GET" [("type", "theme"); ("name", "missing")] [] None in
  let update := Sample.request "POST" [("type", "data")] [] (Some "<p>new</p>") in
  let unknown := Sample.request "GET" [("type", "page")] [] None in
  status_of (handleThemeNew Sample.env missing) = Some 500 ∧
  outcome (GET Sample.env missing) =
    Returned (NextResponse_json (error_object "Internal Server Error") 200) ∧
  status_of (handleDataNew Sample.env update) = Some 500 ∧
  outcome (POST Sample.env update) = Returned (NextResponse_json (JObj []) 200) ∧
  status_of (handleEditorNew Sample.env unknown (getQueryParams unknown)) = Some 400 ∧
  outcome (GET Sample.env unknown) =
    Returned {| res_status := 200;
                res_headers := [("Content-Type", "application/json")];
                res_body := BodyText "[object Object]" |}.
Proof. vm_compute. repeat split. Qed.

(** C5: when the [type] parameter is absent or is none of [data], [asset]
    and [theme], the dispatching handler makes no call and answers with
    status 400 and the object whose [error] field is [Invalid Type]. *)
Theorem invalid_type_is_400 env req (query : gmap string string) :
  query !! "type" ≠ Some "data" →
  query !! "type" ≠ Some "asset" →
  query !! "type" ≠ Some "theme" →
  handleEditorNew env req query =
    ([], Returned (NextResponse_json (JObj [("error", JStr "Invalid Type")]) 400)).
Proof.
  intros Hd Ha Ht. rewrite handleEditorNew_dispatch.
  destruct (strict_eq (query !! "type") "data") eqn:Ed;
    [apply strict_eq_true in Ed; contradiction|].
  destruct (strict_eq (query !! "type") "asset") eqn:Ea;
    [apply strict_eq_true in Ea; contradiction|].
  destruct (strict_eq (query !! "type") "theme") eqn:Et;
    [apply strict_eq_true in Et; contradiction|].
  reflexivity.
Qed.

Lemma invalid_type_is_400_witness :
  handleEditorNew Sample.env (Sample.request "GET" [("path", "home")] [] None)
    (fromEntries [("path", "home")]) =
    ([], Returned (NextResponse_json (JObj [("error", JStr "Invalid Type")]) 400)) ∧
  handleEditorNew Sample.env (Sample.request "POST" [("type", "Theme")] [] None)
    (fromEntries [("type", "Theme")]) =
    ([], Returned (NextResponse_json (JObj [("error", JStr "Invalid Type")]) 400)).
Proof.
  split.
  - apply (invalid_type_is_400 Sample.env); vm_compute; discriminate.
  - apply (invalid_type_is_400 Sample.env); vm_compute; discriminate.
Defined.

(** C6: a request that reaches a handler with a method the handler does
    not support is answered with status 405, without any call being made:
    anything but GET and POST for data, anything but GET for asset and for
    theme. *)
Theorem unsupported_method_is_405 env req :
  req_method req ≠ "GET" →
  (req_method req ≠ "POST" →
   trace (handleDataNew env req) = [] ∧ status_of (handleDataNew env req) = Some 405) ∧
  (trace (handleAssetNew env req) = [] ∧ status_of (handleAssetNew env req) = Some 405) ∧
  (trace (handleThemeNew env req) = [] ∧ status_of (handleThemeNew env req) = Some 405).
Proof.
  intros Hg. repeat split.
  - rewrite handleDataNew_other by assumption. reflexivity.
  - rewrite handleDataNew_other by assumption. reflexivity.
  - rewrite handleAssetNew_other by assumption. reflexivity.
  - rewrite handleAssetNew_other by assumption. reflexivity.
  - rewrite handleThemeNew_other by assumption. reflexivity.
  - rewrite handleThemeNew_other by assumption. reflexivity.
Qed.

Lemma unsupported_method_is_405_witness :
  let req := Sample.request "DELETE" [("type", "data"); ("path", "home")] [] None in
  (req_method req ≠ "POST" →
   trace (handleDataNew Sample.env req) = [] ∧
   status_of (handleDataNew Sample.env req) = Some 405) ∧
  (trace (handleAssetNew Sample.env req) = [] ∧
   status_of (handleAssetNew Sample.env req) = Some 405) ∧
  (trace (handleThemeNew Sample.env req) = [] ∧
   status_of (handleThemeNew Sample.env req) = Some 405).
Proof.
  apply (unsupported_method_is_405 Sample.env
           (Sample.request "DELETE" [("type", "data"); ("path", "home")] [] None)).
  vm_compute. discriminate.
Defined.

Lemma isMultiPart_spec req : isMultiPart req = true ↔ multipart_content_type req.
Proof.
  unfold isMultiPart, multipart_content_type.
  destruct (req_headers req !! "content-type") as [contentType|].
  - split; [intros H; exists contentType; auto | intros (c & [= <-] & H); exact H].
  - split; [discriminate | intros (c & [=] & _)].
Qed.

(** The data handler on a POST: the request is treated as an upload
    exactly when its content-type header starts with
    [multipart/form-data]. Then [uploadFiles] is called on the request and
    its URLs are the handler's response. Otherwise, also without a
    content-type header, [updateData] is called with the route, the format
    and the body, and once it has saved the body the handler's response is
    the empty object. *)
Theorem post_data_dispatch env req :
  req_method req = "POST" →
  let route := getQueryParams req !! "path" in
  let ext := or_else (getQueryParams req !! "ext") "html" in
  let run := handleDataNew env req in
  (In (EvUploadFiles req) (trace run) ↔ multipart_content_type req) ∧
  (In (EvUpdateData route ext (req_body req)) (trace run) ↔ ¬ multipart_content_type req) ∧
  (multipart_content_type req →
   ∀ urls, uploadFiles env req = Returned urls →
           run = ([EvUploadFiles req], Returned (NextResponse_json (JArr (map JStr urls)) 200))) ∧
  (¬ multipart_content_type req →
   updateData env route ext (req_body req) = Returned tt →
   run = ([EvUpdateData route ext (req_body req)], Returned (NextResponse_json (JObj []) 200))).
Proof.
  intros Hm route ext run. subst run.
  destruct (isMultiPart req) eqn:Hmp.
  - assert (Hmc : multipart_content_type req) by (apply isMultiPart_spec; exact Hmp).
    rewrite (handleDataNew_POST_upload env req Hm Hmp).
    destruct (uploadFiles env req) as [urls|e]; cbn [trace fst In];
      repeat split; try tauto; try (intros; congruence);
      try (intros [H|[H|[]]]; discriminate); try (intros [H|[]]; discriminate).
  - assert (Hmc : ¬ multipart_content_type req)
      by (rewrite <- isMultiPart_spec, Hmp; discriminate).
    pose proof (handleDataNew_POST_update env req Hm Hmp) as Hrun.
    cbv zeta in Hrun. fold route ext in Hrun. rewrite Hrun.
    destruct (updateData env route ext (req_body req)) as [[]|e]; cbn [trace fst In];
      repeat split; try tauto; try (intros; congruence);
      try (intros [H|[H|[]]]; discriminate); try (intros [H|[]]; discriminate).
Qed.

Lemma post_data_dispatch_witness :
  let upload := Sample.request "POST" [("type", "data"); ("path", "home")]
                  [("content-type", "multipart/form-data; boundary=x")] None in
  let update := Sample.request "POST" [("type", "data"); ("path", "home"); ("ext", "json")]
                  [] (Some "{}") in
  handleDataNew Sample.env upload =
    ([EvUploadFiles upload],
     Returned (NextResponse_json (JArr [JStr "/uploaded/photo.png"]) 200)) ∧
  handleDataNew Sample.env update =
    ([EvUpdateData (Some "home") "json" (Some "{}")],
     Returned (NextResponse_json (JObj []) 200)).
Proof.
  intros upload update. split.
  - destruct (post_data_dispatch Sample.env upload eq_refl) as (_ & _ & Hup & _).
    apply (Hup (ex_intro _ "multipart/form-data; boundary=x" (conj eq_refl eq_refl))
               ["/uploaded/photo.png"] eq_refl).
  - destruct (post_data_dispatch Sample.env update eq_refl) as (_ & _ & _ & Hsave).
    apply Hsave; [|reflexivity].
    intros (contentType & Hget & _). vm_compute in Hget. discriminate.
Defined.

(** C7, evaluated where it fails. A multipart POST data request is treated
    as an upload: [uploadFiles] is called and the data handler answers
    with the array of its URLs. [POST] then serialises the response object
    itself, so what the client receives is the empty object and not the
    URLs. A POST that is not multipart is saved through [updateData] and
    answered with the empty object, as the claim says. *)
Theorem POST_upload_answers_without_urls :
  let upload := Sample.request "POST" [("type", "data"); ("path", "home")]
                  [("content-type", "multipart/form-data; boundary=x")] None in
  let update := Sample.request "POST" [("type", "data"); ("path", "home")]
                  [("content-type", "text/plain")] (Some "<p>new</p>") in
  uploadFiles Sample.env upload = Returned ["/uploaded/photo.png"] ∧
  handleDataNew Sample.env upload =
    ([EvUploadFiles upload],
     Returned (NextResponse_json (JArr [JStr "/uploaded/photo.png"]) 200)) ∧
  POST Sample.env upload =
    ([EvUploadFiles upload], Returned (NextResponse_json (JObj []) 200)) ∧
  POST Sample.env update =
    ([EvUpdateData (Some "home") "html" (Some "<p>new</p>")],
     Returned (NextResponse_json (JObj []) 200)).
Proof. repeat split. Qed.

(** The asset handler on a successful read: the bytes of the file, with
    [Content-Type: image/png] and [Content-Length] set to their number. *)
Lemma handleAssetNew_success env req data :
  req_method req = "GET" →
  asset_read env req = Returned data →
  ∃ t r, handleAssetNew env req = (t, Returned r) ∧
         res_status r = 200 ∧
         res_body r = BodyBuffer data ∧
         headers_get "Content-Type" (res_headers r) = Some "image/png" ∧
         headers_get "Content-Length" (res_headers r) = Some (pretty (length data)).
Proof.
  intros Hm Hread. rewrite (handleAssetNew_GET env req Hm).
  unfold asset_read in Hread.
  destruct (resolveAsset env req) as [p|e]; [|discriminate].
  rewrite Hread. do 2 eexists. repeat split.
Qed.

(** [GET] on a successful asset read: the same bytes under status 200,
    with [Content-Type: image/png] as the only header. *)
Lemma GET_asset_success env req data :
  getQueryParams req !! "type" = Some "asset" →
  req_method req = "GET" →
  asset_read env req = Returned data →
  outcome (GET env req) =
    Returned {| res_status := 200;
                res_headers := [("Content-Type", "image/png")];
                res_body := BodyBuffer data |}.
Proof.
  intros Hty Hm Hread.
  destruct (handleAssetNew_success env req data Hm Hread) as (t & r & Hr & _ & Hb & _).
  rewrite (GET_asset env req t r Hty Hr), Hb. reflexivity.
Qed.

(** C8, evaluated where it fails. For the asset [logo.png] the asset
    handler answers with the eight bytes of the file, [Content-Type:
    image/png] and [Content-Length: 8]; the response [GET] sends carries
    the same bytes and content type but no [Content-Length] header. *)
Theorem GET_asset_drops_content_length :
  let req := Sample.request "GET" [("type", "asset"); ("path", "logo.png")] [] None in
  handleAssetNew Sample.env req =
    ([EvReadFile "/srv/app/node_modules/destack/logo.png"],
     Returned {| res_status := 200;
                 res_headers := [("Content-Type", "image/png"); ("Content-Length", "8")];
                 res_body := BodyBuffer (list_byte_of_string "PNG-logo") |}) ∧
  outcome (GET Sample.env req) =
    Returned {| res_status := 200;
                res_headers := [("Content-Type", "image/png")];
                res_body := BodyBuffer (list_byte_of_string "PNG-logo") |} ∧
  match outcome (GET Sample.env req) with
  | Returned r => headers_get "Content-Length" (res_headers r)
  | Threw _ => None
  end = None.
Proof. vm_compute. repeat split. Qed.

Lemma or_else_absent_or_empty (a : option string) b :
  a = None ∨ a = Some "" → or_else a b = b.
Proof. intros [-> | ->]; reflexivity. Qed.

(** C9: when the [ext] parameter is absent or empty the data handler works
    with the format [html]: a GET calls [loadData] with the route and
    [html], a POST that is not multipart calls [updateData] with the
    route, [html] and the body; what the handler answers follows from that
    one call. *)
Theorem ext_defaults_to_html env req :
  getQueryParams req !! "ext" = None ∨ getQueryParams req !! "ext" = Some "" →
  let route := getQueryParams req !! "path" in
  (req_method req = "GET" →
   handleDataNew env req =
     match loadData env route "html" with
     | Returned data => ([EvLoadData route "html"], Returned (NextResponse_json data 200))
     | Threw e =>
         ([EvLoadData route "html";
           EvConsoleError "Error handling data in handleDataNew:" e],
          Returned (NextResponse_json (error_object "Internal Server Error") 500))
     end) ∧
  (req_method req = "POST" → ¬ multipart_content_type req →
   handleDataNew env req =
     match updateData env route "html" (req_body req) with
     | Returned _ =>
         ([EvUpdateData route "html" (req_body req)],
          Returned (NextResponse_json (JObj []) 200))
     | Threw e =>
         ([EvUpdateData route "html" (req_body req);
           EvConsoleError "Error handling data in handleDataNew:" e],
          Returned (NextResponse_json (error_object "Internal Server Error") 500))
     end).
Proof.
  intros Hext route. split.
  - intros Hm. pose proof (handleDataNew_GET env req Hm) as H. cbv zeta in H.
    rewrite (or_else_absent_or_empty _ "html" Hext) in H. exact H.
  - intros Hm Hmp.
    assert (Hf : isMultiPart req = false).
    { destruct (isMultiPart req) eqn:E; [|reflexivity].
      apply isMultiPart_spec in E. contradiction. }
    pose proof (handleDataNew_POST_update env req Hm Hf) as H. cbv zeta in H.
    rewrite (or_else_absent_or_empty _ "html" Hext) in H. exact H.
Qed.

Lemma ext_defaults_to_html_witness :
  let load := Sample.request "GET" [("type", "data"); ("path", "home")] [] None in
  let save := Sample.request "POST" [("type", "data"); ("path", "home"); ("ext", "")]
                [("content-type", "text/plain")] (Some "<p>new</p>") in
  handleDataNew Sample.env load =
    ([EvLoadData (Some "home") "html"],
     Returned (NextResponse_json (JStr "<main>home</main>") 200)) ∧
  handleDataNew Sample.env save =
    ([EvUpdateData (Some "home") "html" (Some "<p>new</p>")],
     Returned (NextResponse_json (JObj []) 200)).
Proof.
  intros load save. split.
  - exact (proj1 (ext_defaults_to_html Sample.env load (or_introl eq_refl)) eq_refl).
  - apply (proj2 (ext_defaults_to_html Sample.env save (or_intror eq_refl)) eq_refl).
    intros (contentType & Hget & Hpre). vm_compute in Hget.
    injection Hget as <-. vm_compute in Hpre. discriminate.
Defined.

(** C10: a request with query type [asset] handled by [GET] is always
    answered with status 200 and [Content-Type: image/png], whether or not
    the file could be read. The body holds the bytes of whatever the asset
    handler answered: the file when the read succeeded, and the JSON text
    of the handler's error object when it failed. *)
Theorem GET_asset_always_200_png env req :
  getQueryParams req !! "type" = Some "asset" →
  ∃ t inner r,
    handleAssetNew env req = (t, Returned inner) ∧
    GET env req = (t, Returned r) ∧
    res_status r = 200 ∧
    headers_get "Content-Type" (res_headers r) = Some "image/png" ∧
    res_body r = BodyBuffer (body_bytes (res_body inner)) ∧
    (req_method req = "GET" →
     match asset_read env req with
     | Returned data => res_body r = BodyBuffer data
     | Threw _ =>
         inner = NextResponse_json (error_object "Internal Server Error") 500 ∧
         res_body r = BodyBuffer internal_error_bytes
     end).
Proof.
  intros Hty.
  destruct (handleAssetNew_returns env req) as (t & inner & Hin & _).
  exists t, inner. eexists. split; [exact Hin|].
  split; [exact (GET_asset env req t inner Hty Hin)|].
  cbn [res_status res_headers res_body]. repeat split.
  intros Hm. rewrite (handleAssetNew_GET env req Hm) in Hin. unfold asset_read.
  destruct (resolveAsset env req) as [p|e].
  - destruct (fs_readFile env p) as [data|e]; injection Hin as _ <-; [reflexivity|].
    split; reflexivity.
  - injection Hin as _ <-. split; reflexivity.
Qed.

Lemma GET_asset_always_200_png_witness :
  let req := Sample.request "GET" [("type", "asset"); ("path", "nope.png")] [] None in
  ∃ t inner r,
    handleAssetNew Sample.env req = (t, Returned inner) ∧
    GET Sample.env req = (t, Returned r) ∧
    res_status r = 200 ∧
    headers_get "Content-Type" (res_headers r) = Some "image/png" ∧
    res_body r = BodyBuffer (body_bytes (res_body inner)) ∧
    (req_method req = "GET" →
     match asset_read Sample.env req with
     | Returned data => res_body r = BodyBuffer data
     | Threw _ =>
         inner = NextResponse_json (error_object "Internal Server Error") 500 ∧
         res_body r = BodyBuffer internal_error_bytes
     end).
Proof.
  exact (GET_asset_always_200_png Sample.env
           (Sample.request "GET" [("type", "asset"); ("path", "nope.png")] [] None)
           eq_refl).
Defined.

(** ** Further properties of the route *)

(** *** Query parameters *)

Lemma foldl_insert_lookup (entries : list (string * string)) (o : gmap string string) k :
  foldl (λ (o : gmap string string) kv, <[kv.1 := kv.2]> o) o entries !! k =
    match last (List.filter (λ kv, (kv.1 =? k)%string) entries) with
    | Some kv => Some kv.2
    | None => o !! k
    end.
Proof.
  revert o. induction entries as [|[k' v] entries IH]; intros o; [reflexivity|].
  cbn [foldl List.filter fst snd]. rewrite IH.
  destruct (String.eqb_spec k' k) as [->|Hne].
  - rewrite last_cons.
    destruct (last (List.filter _ entries)); [reflexivity|].
    cbn. apply lookup_insert_eq.
  - destruct (last (List.filter _ entries)); [reflexivity|].
    cbn. apply lookup_insert_ne. exact Hne.
Qed.

(** X1. When an entry of the search parameters carries a name, the query
    parameter of that name reads as the value of the last such entry. For
    a name the object does not inherit from [Object.prototype], the
    parameter reads as undefined exactly when no entry carries the name. *)
Theorem getQueryParams_last_entry_wins req k :
  (∀ kv, last (List.filter (λ kv, (kv.1 =? k)%string) (req_searchParams req)) = Some kv →
         getQueryParams req !! k = Some kv.2) ∧
  (¬ In k Object_prototype_keys →
   (getQueryParams req !! k = None ↔ ¬ In k (map fst (req_searchParams req)))).
Proof.
  assert (Hlook : getQueryParams req !! k =
            snd <$> last (List.filter (λ kv, (kv.1 =? k)%string) (req_searchParams req))).
  { unfold getQueryParams, fromEntries. rewrite foldl_insert_lookup.
    destruct (last _); reflexivity. }
  split; [intros kv Hkv; rewrite Hlook, Hkv; reflexivity|]. intros _. rewrite Hlook.
  destruct (last _) as [kv|] eqn:Hlast; cbn.
  - split; [discriminate|]. intros Hnot. exfalso. apply Hnot.
    apply last_Some in Hlast as [l' Hl'].
    assert (Hin : In kv (List.filter (λ kv, (kv.1 =? k)%string) (req_searchParams req))).
    { rewrite Hl'. apply in_or_app. right. left. reflexivity. }
    apply filter_In in Hin as [Hin Hk]. apply String.eqb_eq in Hk. subst k.
    apply in_map. exact Hin.
  - split; [intros _|reflexivity]. intros Hin.
    apply in_map_iff in Hin as ([k' v] & Hk & Hin). cbn in Hk. subst k'.
    apply last_None in Hlast.
    assert (Hf : In (k, v) (List.filter (λ kv, (kv.1 =? k)%string) (req_searchParams req))).
    { apply filter_In. split; [exact Hin|]. cbn. apply String.eqb_refl. }
    rewrite Hlast in Hf. destruct Hf.
Qed.

Lemma getQueryParams_last_entry_wins_witness :
  let req := Sample.request "GET" [("type", "data"); ("path", "a"); ("type", "asset")]
               [] None in
  getQueryParams req !! "type" = Some "asset" ∧
  (getQueryParams req !! "ext" = None ↔ ¬ In "ext" (map fst (req_searchParams req))).
Proof.
  intros req. split.
  - exact (proj1 (getQueryParams_last_entry_wins req "type") ("type", "asset") eq_refl).
  - apply (proj2 (getQueryParams_last_entry_wins req "ext")).
    cbn. intros H. repeat (destruct H as [H|H]; [discriminate|]). exact H.
Defined.

(** *** The asset handler on a request without a path *)

(** X2. An asset request that carries no [path] parameter never reaches
    the file system: joining the undefined path throws, the handler logs
    the error and answers with the generic 500 error object. *)
Theorem asset_without_path_reads_nothing env req :
  req_method req = "GET" →
  getQueryParams req !! "path" = None →
  handleAssetNew env req =
    ([EvConsoleError "Error handling asset in handleAssetNew:"
        (TypeError "ERR_INVALID_ARG_TYPE")],
     Returned (NextResponse_json (error_object "Internal Server Error") 500)).
Proof.
  intros Hm Hp. rewrite (handleAssetNew_GET env req Hm).
  unfold resolveAsset. rewrite Hp. reflexivity.
Qed.

Lemma asset_without_path_reads_nothing_witness :
  handleAssetNew Sample.env (Sample.request "GET" [("type", "asset")] [] None) =
    ([EvConsoleError "Error handling asset in handleAssetNew:"
        (TypeError "ERR_INVALID_ARG_TYPE")],
     Returned (NextResponse_json (error_object "Internal Server Error") 500)).
Proof.
  exact (asset_without_path_reads_nothing Sample.env
           (Sample.request "GET" [("type", "asset")] [] None) eq_refl eq_refl).
Defined.

(** *** The theme handler, in full *)

Lemma read_component_unfold env folderPath c :
  read_component env folderPath c =
    ([EvReadFileUtf8 (component_path folderPath c)],
     match fs_readFile_utf8 env (component_path folderPath c) with
     | Returned source => Returned (component_entry source c)
     | Threw e => Threw e
     end).
Proof.
  unfold read_component, component_path.
  change (NodePath.join [Some folderPath; Some c; Some "index.html"])
    with (Returned (NodePath.join_strings [folderPath; c; "index.html"])).
  eff_simpl. destruct (fs_readFile_utf8 env _); reflexivity.
Qed.

Lemma component_source_unfold env folderPath c :
  component_source env folderPath c = fs_readFile_utf8 env (component_path folderPath c).
Proof. reflexivity. Qed.

Lemma settle_all_trace {A} (ps : list (Eff A)) :
  fst (settle_all ps) = concat (map trace ps).
Proof.
  induction ps as [|[t r] ps IH]; [reflexivity|].
  cbn [settle_all map concat]. destruct (settle_all ps) as [t' [vs errs]].
  cbn in IH |- *. rewrite IH. reflexivity.
Qed.

Lemma Promise_all_trace {A} earliest (ps : list (Eff A)) :
  trace (Promise_all earliest ps) = concat (map trace ps).
Proof.
  rewrite <- settle_all_trace. unfold Promise_all.
  destruct (settle_all ps) as [t [vs errs]]. reflexivity.
Qed.

Lemma settle_all_threw {A} (ps : list (Eff A)) :
  Exists (λ p, ∃ e, outcome p = Threw e) ps → snd (snd (settle_all ps)) ≠ [].
Proof.
  induction ps as [|[t r] ps IH]; intros Hex; [inversion Hex|].
  cbn [settle_all]. destruct (settle_all ps) as [t' [vs errs]]. cbn in IH |- *.
  destruct r as [a|e]; [|discriminate].
  apply Exists_cons in Hex as [(e & He)|Hex]; [discriminate|]. exact (IH Hex).
Qed.

Lemma Promise_all_outcome_threw {A} earliest (ps : list (Eff A)) :
  Exists (λ p, ∃ e, outcome p = Threw e) ps →
  ∃ e, outcome (Promise_all earliest ps) = Threw e.
Proof.
  intros Hex. apply settle_all_threw in Hex. unfold Promise_all.
  destruct (settle_all ps) as [t [vs [|e errs]]]; [contradiction|].
  eexists. reflexivity.
Qed.

Lemma Promise_all_components_trace env folderPath names :
  trace (Promise_all (earliest_rejection env)
           (map (read_component env folderPath) names)) =
    map (λ c, EvReadFileUtf8 (component_path folderPath c)) names.
Proof.
  rewrite Promise_all_trace. induction names as [|c names IH]; [reflexivity|].
  cbn [map concat]. rewrite IH, read_component_unfold. reflexivity.
Qed.

(** What a theme request does once the directory has been listed: it
    starts the read of every kept entry, and then either answers with the
    components or logs the rejection and answers 500. *)
Lemma handleThemeNew_listed env req folderPath f :
  req_method req = "GET" →
  themeFolder env req = Returned folderPath →
  fs_readdir env folderPath = Returned f →
  let kept := List.filter is_component f in
  let reads := map (λ c, EvReadFileUtf8 (component_path folderPath c)) kept in
  handleThemeNew env req =
    match outcome (Promise_all (earliest_rejection env)
                     (map (read_component env folderPath) kept)) with
    | Returned components =>
        ((EvReaddir folderPath :: reads)%list,
         Returned (NextResponse_json (JArr components) 200))
    | Threw e =>
        ((EvReaddir folderPath :: reads ++
            [EvConsoleError "Error handling theme in handleThemeNew:" e])%list,
         Returned (NextResponse_json (error_object "Internal Server Error") 500))
    end.
Proof.
  intros Hm Hfolder Hdir kept reads. unfold handleThemeNew, themeFolder in *.
  rewrite (method_GET _ Hm). cbv zeta. rewrite Hfolder. eff_simpl.
  rewrite Hdir. eff_simpl. fold kept.
  pose proof (Promise_all_components_trace env folderPath kept) as Ht. fold reads in Ht.
  destruct (Promise_all _ _) as [t [components|e]]; cbn in Ht; subst t; eff_simpl.
  - rewrite app_nil_r. reflexivity.
  - reflexivity.
Qed.

(** X3. A theme request that carries no [name] parameter never reaches
    the file system: joining the undefined name throws, the handler logs
    the error and answers with the generic 500 error object. *)
Theorem theme_without_name_lists_nothing env req :
  req_method req = "GET" →
  getQueryParams req !! "name" = None →
  handleThemeNew env req =
    ([EvConsoleError "Error handling theme in handleThemeNew:"
        (TypeError "ERR_INVALID_ARG_TYPE")],
     Returned (NextResponse_json (error_object "Internal Server Error") 500)).
Proof.
  intros Hm Hn. unfold handleThemeNew.
  rewrite (method_GET _ Hm). cbv zeta. rewrite Hn. reflexivity.
Qed.

Lemma theme_without_name_lists_nothing_witness :
  handleThemeNew Sample.env (Sample.request "GET" [("type", "theme")] [] None) =
    ([EvConsoleError "Error handling theme in handleThemeNew:"
        (TypeError "ERR_INVALID_ARG_TYPE")],
     Returned (NextResponse_json (error_object "Internal Server Error") 500)).
Proof.
  exact (theme_without_name_lists_nothing Sample.env
           (Sample.request "GET" [("type", "theme")] [] None) eq_refl eq_refl).
Defined.

Lemma filter_fs_reads folderPath (names : list string) :
  List.filter is_fs_call (map (λ c, EvReadFileUtf8 (component_path folderPath c)) names) =
    map (λ c, EvReadFileUtf8 (component_path folderPath c)) names.
Proof.
  induction names as [|c names IH]; [reflexivity|]. cbn. rewrite IH. reflexivity.
Qed.

(** X4. Once the theme directory has been listed, the file-system calls
    of a theme request are the listing followed by one read per kept
    entry, [index.html] under that entry's folder, in the order of the
    listing. Entries named [index.ts] or starting with a dot are never
    read, and a failing read does not stop the reads after it. *)
Theorem theme_reads_every_component env req folderPath f :
  req_method req = "GET" →
  themeFolder env req = Returned folderPath →
  fs_readdir env folderPath = Returned f →
  List.filter is_fs_call (trace (handleThemeNew env req)) =
    EvReaddir folderPath ::
      map (λ c, EvReadFileUtf8 (component_path folderPath c)) (List.filter is_component f).
Proof.
  intros Hm Hfolder Hdir.
  pose proof (handleThemeNew_listed env req folderPath f Hm Hfolder Hdir) as H.
  cbv zeta in H. rewrite H.
  destruct (outcome (Promise_all _ _)) as [components|e]; cbn [trace fst List.filter is_fs_call].
  - rewrite filter_fs_reads. reflexivity.
  - rewrite List.filter_app, filter_fs_reads. cbn. rewrite app_nil_r. reflexivity.
Qed.

Lemma theme_reads_every_component_witness :
  List.filter is_fs_call
    (trace (handleThemeNew Sample.env
              (Sample.request "GET" [("type", "theme"); ("name", "draft")] [] None))) =
    [EvReaddir "/srv/app/node_modules/destack/themes/draft";
     EvReadFileUtf8 "/srv/app/node_modules/destack/themes/draft/hero1/index.html"].
Proof.
  exact (theme_reads_every_component Sample.env
           (Sample.request "GET" [("type", "theme"); ("name", "draft")] [] None)
           "/srv/app/node_modules/destack/themes/draft" ["hero1"]
           eq_refl eq_refl eq_refl).
Defined.

(** X5. A theme listing is all or nothing: when the source of one kept
    entry cannot be read, the handler answers with the generic 500 error
    object and logs one error, whatever the other reads gave. *)
Theorem theme_listing_all_or_nothing env req folderPath f :
  req_method req = "GET" →
  themeFolder env req = Returned folderPath →
  fs_readdir env folderPath = Returned f →
  Exists (λ c, ∃ e, component_source env folderPath c = Threw e)
         (List.filter is_component f) →
  outcome (handleThemeNew env req) =
    Returned (NextResponse_json (error_object "Internal Server Error") 500) ∧
  ∃ e, List.filter is_log (trace (handleThemeNew env req)) =
         [EvConsoleError "Error handling theme in handleThemeNew:" e].
Proof.
  intros Hm Hfolder Hdir Hex.
  pose proof (handleThemeNew_listed env req folderPath f Hm Hfolder Hdir) as H.
  cbv zeta in H. rewrite H.
  destruct (Promise_all_outcome_threw (earliest_rejection env)
              (map (read_component env folderPath) (List.filter is_component f)))
    as (e & ->).
  { apply Exists_exists in Hex as (c & Hc & e & He).
    apply Exists_exists. exists (read_component env folderPath c).
    split; [apply list_elem_of_In, in_map, list_elem_of_In; exact Hc|]. exists e.
    rewrite read_component_eq, He. reflexivity. }
  split; [reflexivity|]. exists e. cbn [trace fst List.filter is_log].
  rewrite List.filter_app. cbn.
  assert (Hnil : ∀ names,
            List.filter is_log
              (map (λ c, EvReadFileUtf8 (component_path folderPath c)) names) = []).
  { induction names as [|c names IH]; [reflexivity | exact IH]. }
  rewrite Hnil. reflexivity.
Qed.

Lemma theme_listing_all_or_nothing_witness :
  let req := Sample.request "GET" [("type", "theme"); ("name", "draft")] [] None in
  outcome (handleThemeNew Sample.env req) =
    Returned (NextResponse_json (error_object "Internal Server Error") 500) ∧
  ∃ e, List.filter is_log (trace (handleThemeNew Sample.env req)) =
         [EvConsoleError "Error handling theme in handleThemeNew:" e].
Proof.
  apply (theme_listing_all_or_nothing Sample.env
           (Sample.request "GET" [("type", "theme"); ("name", "draft")] [] None)
           "/srv/app/node_modules/destack/themes/draft" ["hero1"]
           eq_refl eq_refl eq_refl).
  apply Exists_cons_hd.
  exists (SystemError "ENOENT" "/srv/app/node_modules/destack/themes/draft/hero1/index.html").
  reflexivity.
Defined.

(** X6. When every kept entry's source can be read, the theme handler
    answers 200 with one [{source, folder}] object per kept entry, in the
    order of the directory listing; a directory with no kept entry gives
    the empty array. *)
Theorem theme_listing_in_order env req folderPath f sources :
  req_method req = "GET" →
  themeFolder env req = Returned folderPath →
  fs_readdir env folderPath = Returned f →
  Forall2 (λ c source, component_source env folderPath c = Returned source)
          (List.filter is_component f) sources →
  outcome (handleThemeNew env req) =
    Returned (NextResponse_json
                (JArr (zip_with component_entry sources (List.filter is_component f)))
                200).
Proof.
  intros Hm Hfolder Hdir Hsrc.
  pose proof (handleThemeNew_listed env req folderPath f Hm Hfolder Hdir) as H.
  cbv zeta in H. rewrite H.
  rewrite (Promise_all_outcome_ok _ _
             (zip_with component_entry sources (List.filter is_component f)));
    [reflexivity|].
  clear H. induction Hsrc as [|c source kept sources Hc _ IH]; cbn [map zip_with]; constructor.
  - rewrite read_component_eq, Hc. reflexivity.
  - exact IH.
Qed.

Lemma theme_listing_in_order_witness :
  outcome (handleThemeNew Sample.env
             (Sample.request "GET" [("type", "theme"); ("name", "default")] [] None)) =
    Returned (NextResponse_json
                (JArr [component_entry "<section>banner</section>" "banner1";
                       component_entry "<footer>footer</footer>" "footer1"])
                200).
Proof.
  apply (theme_listing_in_order Sample.env
           (Sample.request "GET" [("type", "theme"); ("name", "default")] [] None)
           "/srv/app/node_modules/destack/themes/default"
           ["banner1"; "footer1"; "index.ts"; ".hidden"]
           ["<section>banner</section>"; "<footer>footer</footer>"]
           eq_refl eq_refl eq_refl).
  repeat constructor.
Defined.

(** *** The shape of every run *)

Lemma handleThemeNew_join_throws env req e :
  req_method req = "GET" →
  themeFolder env req = Threw e →
  handleThemeNew env req =
    ([EvConsoleError "Error handling theme in handleThemeNew:" e],
     Returned (NextResponse_json (error_object "Internal Server Error") 500)).
Proof.
  intros Hm Hfolder. unfold handleThemeNew, themeFolder in *.
  rewrite (method_GET _ Hm). cbv zeta. rewrite Hfolder. reflexivity.
Qed.

Lemma handleDataNew_run env req : handler_run is_store_call (handleDataNew env req).
Proof.
  destruct (String.eqb_spec (req_method req) "GET") as [Hg|Hg].
  { pose proof (handleDataNew_GET env req Hg) as H. cbv zeta in H. rewrite H.
    destruct (loadData _ _ _).
    - run_ok [EvLoadData (getQueryParams req !! "path")
                (or_else (getQueryParams req !! "ext") "html")] 200.
    - run_failed [EvLoadData (getQueryParams req !! "path")
                    (or_else (getQueryParams req !! "ext") "html")]. }
  destruct (String.eqb_spec (req_method req) "POST") as [Hp|Hp].
  - destruct (isMultiPart req) eqn:Hmp.
    + rewrite (handleDataNew_POST_upload env req Hp Hmp).
      destruct (uploadFiles _ _).
      * run_ok [EvUploadFiles req] 200.
      * run_failed [EvUploadFiles req].
    + pose proof (handleDataNew_POST_update env req Hp Hmp) as H. cbv zeta in H. rewrite H.
      destruct (updateData _ _ _ _).
      * run_ok [EvUpdateData (getQueryParams req !! "path")
                  (or_else (getQueryParams req !! "ext") "html") (req_body req)] 200.
      * run_failed [EvUpdateData (getQueryParams req !! "path")
                      (or_else (getQueryParams req !! "ext") "html") (req_body req)].
  - rewrite (handleDataNew_other env req Hg Hp). run_ok (@nil Event) 405.
Qed.

Lemma handleAssetNew_run env req : handler_run is_fs_call (handleAssetNew env req).
Proof.
  destruct (String.eqb_spec (req_method req) "GET") as [Hg|Hg].
  - rewrite (handleAssetNew_GET env req Hg).
    destruct (resolveAsset env req) as [p|e]; [destruct (fs_readFile env p)|].
    + run_ok [EvReadFile p] 200.
    + run_failed [EvReadFile p].
    + run_failed (@nil Event).
  - rewrite (handleAssetNew_other env req Hg). run_ok (@nil Event) 405.
Qed.

Lemma Forall_fs_reads folderPath (names : list string) :
  Forall (λ ev, is_fs_call ev = true)
         (map (λ c, EvReadFileUtf8 (component_path folderPath c)) names).
Proof. induction names; constructor; [reflexivity | assumption]. Qed.

Lemma handleThemeNew_run env req : handler_run is_fs_call (handleThemeNew env req).
Proof.
  destruct (String.eqb_spec (req_method req) "GET") as [Hg|Hg].
  - destruct (themeFolder env req) as [folderPath|e] eqn:Hfolder.
    + destruct (fs_readdir env folderPath) as [f|e] eqn:Hdir.
      * pose proof (handleThemeNew_listed env req folderPath f Hg Hfolder Hdir) as H.
        cbv zeta in H. rewrite H.
        set (reads := map (λ c, EvReadFileUtf8 (component_path folderPath c))
                          (List.filter is_component f)).
        destruct (outcome (Promise_all _ _)) as [components|e].
        -- exists (EvReaddir folderPath :: reads), []. split; [rewrite app_nil_r; reflexivity|].
           split; [constructor; [reflexivity | apply Forall_fs_reads]|].
           left. split; [reflexivity|]. exists 200. split; [reflexivity | discriminate].
        -- exists (EvReaddir folderPath :: reads). eexists. split; [reflexivity|].
           split; [constructor; [reflexivity | apply Forall_fs_reads]|].
           right. do 2 eexists. split; reflexivity.
      * rewrite (handleThemeNew_readdir_throws env req folderPath e Hg Hfolder Hdir).
        run_failed [EvReaddir folderPath].
    + rewrite (handleThemeNew_join_throws env req e Hg Hfolder). run_failed (@nil Event).
  - rewrite (handleThemeNew_other env req Hg). run_ok (@nil Event) 405.
Qed.

Lemma handler_run_weaken (kind kind' : Event → bool) m :
  (∀ ev, kind ev = true → kind' ev = true) → handler_run kind m → handler_run kind' m.
Proof.
  intros Hk (calls & log & Ht & Hc & Hl). exists calls, log.
  split; [exact Ht|]. split; [|exact Hl].
  eapply Forall_impl; [exact Hc | exact Hk].
Qed.

(** Whatever the type, the dispatcher's run is a run of calls to its
    collaborators. *)
Lemma handleEditorNew_run env req (query : gmap string string) :
  handler_run (λ ev, is_store_call ev || is_fs_call ev) (handleEditorNew env req query).
Proof.
  rewrite handleEditorNew_dispatch.
  destruct (strict_eq (query !! "type") "data").
  { apply (handler_run_weaken is_store_call); [|apply handleDataNew_run].
    intros ev ->. reflexivity. }
  destruct (strict_eq (query !! "type") "asset").
  { apply (handler_run_weaken is_fs_call); [|apply handleAssetNew_run].
    intros ev ->. apply orb_true_r. }
  destruct (strict_eq (query !! "type") "theme").
  { apply (handler_run_weaken is_fs_call); [|apply handleThemeNew_run].
    intros ev ->. apply orb_true_r. }
  run_ok (@nil Event) 400.
Qed.

Lemma handler_run_logged (kind : Event → bool) m :
  (∀ ev, kind ev = true → is_log ev = false) →
  handler_run kind m →
  (status_of m = Some 500 ↔ ∃ msg e, In (EvConsoleError msg e) (trace m)) ∧
  (length (List.filter is_log (trace m)) ≤ 1)%nat.
Proof.
  intros Hk (calls & log & -> & Hc & Hl).
  assert (Hnone : List.filter is_log calls = []).
  { induction Hc as [|ev calls Hev _ IH]; [reflexivity|].
    cbn. rewrite (Hk ev Hev). exact IH. }
  assert (Hnot : ∀ msg e, ¬ In (EvConsoleError msg e) calls).
  { intros msg e Hin. apply list_elem_of_In in Hin.
    rewrite Forall_forall in Hc. specialize (Hk _ (Hc _ Hin)). discriminate. }
  rewrite List.filter_app, Hnone.
  destruct Hl as [(-> & st & Hst & Hne) | (msg & e & -> & Hst)].
  - split; [|cbn; lia]. rewrite Hst. split; [intros [= ->]; contradiction|].
    intros (msg & e & Hin). rewrite app_nil_r in Hin. destruct (Hnot _ _ Hin).
  - split; [|cbn; lia]. split; [intros _|intros _; exact Hst].
    exists msg, e. apply in_or_app. right. left. reflexivity.
Qed.

(** X7. Inside the route a response has status 500 exactly when the
    handler wrote to the error console during the request, and a request
    writes at most one line there. *)
Theorem status_500_iff_logged env req (query : gmap string string) :
  (status_of (handleEditorNew env req query) = Some 500 ↔
   ∃ msg e, In (EvConsoleError msg e) (trace (handleEditorNew env req query))) ∧
  (length (List.filter is_log (trace (handleEditorNew env req query))) ≤ 1)%nat.
Proof.
  apply (handler_run_logged (λ ev, is_store_call ev || is_fs_call ev));
    [|apply handleEditorNew_run].
  intros [] H; try reflexivity; discriminate.
Qed.

Lemma handler_run_only (kind : Event → bool) (P : Event → Prop) m :
  (∀ ev, kind ev = true → P ev) →
  (∀ msg e, P (EvConsoleError msg e)) →
  handler_run kind m → Forall P (trace m).
Proof.
  intros Hk Hlog (calls & log & -> & Hc & Hl). apply Forall_app. split.
  - eapply Forall_impl; [exact Hc | exact Hk].
  - destruct Hl as [(-> & _) | (msg & e & -> & _)]; repeat constructor. apply Hlog.
Qed.

(** X8. Each handler keeps to its own collaborators: the data handler
    never calls the file system, and the asset and theme handlers never
    call the document store or the upload transport. *)
Theorem handlers_keep_to_their_collaborators env req :
  Forall (λ ev, is_fs_call ev = false) (trace (handleDataNew env req)) ∧
  Forall (λ ev, is_store_call ev = false) (trace (handleAssetNew env req)) ∧
  Forall (λ ev, is_store_call ev = false) (trace (handleThemeNew env req)).
Proof.
  split; [|split].
  - apply (handler_run_only is_store_call); [| |apply handleDataNew_run].
    + intros [] H; try reflexivity; discriminate.
    + reflexivity.
  - apply (handler_run_only is_fs_call); [| |apply handleAssetNew_run].
    + intros [] H; try reflexivity; discriminate.
    + reflexivity.
  - apply (handler_run_only is_fs_call); [| |apply handleThemeNew_run].
    + intros [] H; try reflexivity; discriminate.
    + reflexivity.
Qed.

(** *** The exported handlers around the dispatcher *)

Lemma POST_run env req :
  ∃ t r r',
    handleEditorNew env req (getQueryParams req) = (t, Returned r) ∧
    POST env req = (t, Returned r') ∧
    res_status r' = 200 ∧
    (getQueryParams req !! "type" ≠ Some "theme" → r' = NextResponse_json (JObj []) 200).
Proof.
  unfold POST. cbv zeta.
  destruct (handleEditorNew_returns env req (getQueryParams req))
    as (t & r & -> & _ & Hj). exists t, r. eff_simpl.
  destruct (strict_eq (getQueryParams req !! "type") "theme") eqn:Ht.
  - apply strict_eq_true in Ht. rewrite Ht in Hj.
    destruct (Hj eq_refl) as [j Hb]. unfold Response_json. rewrite Hb. eff_simpl.
    rewrite app_nil_r. eexists. repeat split. intros Hne. contradiction.
  - eff_simpl. rewrite app_nil_r. eexists. repeat split.
Qed.

(** X9. The exported handlers make no call of their own. [POST] makes
    exactly the calls the dispatcher makes and answers every request with
    status 200. [GET] makes exactly those calls too and answers with
    status 200, its [catch] clause not entered, with one exception: when
    the type is neither [theme] nor [asset] and the coercion of the parsed
    body to a response body throws, it logs that error as its one
    additional line and answers with status 500. *)
Theorem exported_handlers_add_no_call env req :
  let inner := handleEditorNew env req (getQueryParams req) in
  trace (POST env req) = trace inner ∧
  status_of (POST env req) = Some 200 ∧
  ((trace (GET env req) = trace inner ∧ status_of (GET env req) = Some 200) ∨
   (∃ r j e,
      outcome inner = Returned r ∧ res_body r = BodyJson j ∧
      BodyInit_of_value j = Threw e ∧
      trace (GET env req) =
        (trace inner ++ [EvConsoleError "Error handling GET request:" e])%list ∧
      status_of (GET env req) = Some 500)) ∧
  (strict_eq (getQueryParams req !! "type") "theme"
   || strict_eq (getQueryParams req !! "type") "asset" = true →
   trace (GET env req) = trace inner ∧ status_of (GET env req) = Some 200).
Proof.
  cbv zeta.
  destruct (POST_run env req) as (t2 & r2 & r2' & Hh2 & Hp & Hs2 & _).
  destruct (GET_run env req) as (t & r & Hh & Hget).
  rewrite Hh in Hh2. injection Hh2 as <- <-.
  rewrite Hh, Hp. unfold status_of. cbn [outcome trace fst snd]. rewrite Hs2.
  split; [reflexivity|]. split; [reflexivity|].
  destruct Hget as [(r' & -> & Hs) | (j & e & Ht & Ha & Hb & Hbody & ->)];
    cbn [outcome trace fst snd].
  - rewrite Hs. split; [left; split; reflexivity|]. intros _. split; reflexivity.
  - split.
    + right. exists r, j, e. repeat split; assumption.
    + rewrite Ht, Ha. discriminate.
Qed.

(** X10. A request with method GET never writes: whatever its type and
    parameters, the calls [GET] makes include neither [updateData] nor
    [uploadFiles]. *)
Theorem GET_request_never_writes env req :
  req_method req = "GET" →
  Forall (λ ev, is_write_call ev = false) (trace (GET env req)).
Proof.
  intros Hm.
  assert (Hinner : Forall (λ ev, is_write_call ev = false)
                          (trace (handleEditorNew env req (getQueryParams req)))).
  2: { destruct (GET_run env req)
         as (t & r & Hh & [(r' & -> & _) | (j & e & _ & _ & _ & _ & ->)]);
         rewrite Hh in Hinner; cbn [trace fst] in *; [exact Hinner|].
       apply Forall_app. split; [exact Hinner|]. repeat constructor. }
  rewrite handleEditorNew_dispatch.
  destruct (strict_eq (getQueryParams req !! "type") "data").
  { pose proof (handleDataNew_GET env req Hm) as H. cbv zeta in H. rewrite H.
    destruct (loadData _ _ _); repeat constructor. }
  destruct (strict_eq (getQueryParams req !! "type") "asset").
  { apply (handler_run_only is_fs_call); [| |apply handleAssetNew_run].
    - intros [] H; try reflexivity; discriminate.
    - reflexivity. }
  destruct (strict_eq (getQueryParams req !! "type") "theme").
  { apply (handler_run_only is_fs_call); [| |apply handleThemeNew_run].
    - intros [] H; try reflexivity; discriminate.
    - reflexivity. }
  constructor.
Qed.

Lemma GET_request_never_writes_witness :
  Forall (λ ev, is_write_call ev = false)
         (trace (GET Sample.env
                   (Sample.request "GET" [("type", "data"); ("path", "home")]
                      [("content-type", "multipart/form-data")] (Some "<p/>")))).
Proof.
  exact (GET_request_never_writes Sample.env
           (Sample.request "GET" [("type", "data"); ("path", "home")]
              [("content-type", "multipart/form-data")] (Some "<p/>")) eq_refl).
Defined.




(** X12. Whatever a request of a type other than [theme] did, [POST]
    answers it with the empty JSON object under status 200: the URLs of
    an upload, the error object of a failed update, the 405 of a wrong
    method and the 400 of an unknown type are all replaced by it. *)
Theorem POST_answers_the_empty_object env req :
  getQueryParams req !! "type" ≠ Some "theme" →
  outcome (POST env req) = Returned (NextResponse_json (JObj []) 200).
Proof.
  intros Hty. destruct (POST_run env req) as (t & r & r' & _ & -> & _ & Hr).
  rewrite (Hr Hty). reflexivity.
Qed.

Lemma POST_answers_the_empty_object_witness :
  outcome (POST Sample.env
             (Sample.request "POST" [("type", "data"); ("path", "home")]
                [("content-type", "multipart/form-data; boundary=x")] None)) =
    Returned (NextResponse_json (JObj []) 200).
Proof.
  apply (POST_answers_the_empty_object Sample.env
           (Sample.request "POST" [("type", "data"); ("path", "home")]
              [("content-type", "multipart/form-data; boundary=x")] None)).
  vm_compute. discriminate.
Defined.

(** X13. A theme request with a method other than GET reads nothing: the
    theme handler refuses it with 405, and both exported handlers send
    that refusal, the object with [error] set to [Not allowed], under
    status 200. *)
Theorem theme_by_other_method_is_refused_under_200 env req :
  getQueryParams req !! "type" = Some "theme" →
  req_method req ≠ "GET" →
  handleThemeNew env req =
    ([], Returned (NextResponse_json (error_object "Not allowed") 405)) ∧
  POST env req = ([], Returned (NextResponse_json (error_object "Not allowed") 200)) ∧
  GET env req = ([], Returned (NextResponse_json (error_object "Not allowed") 200)).
Proof.
  intros Hty Hm.
  pose proof (handleThemeNew_other env req Hm) as Hth.
  split; [exact Hth|]. split.
  - unfold POST. cbv zeta. rewrite (handleEditorNew_theme _ _ _ Hty), Hth, Hty. reflexivity.
  - apply (GET_theme env req [] _ (error_object "Not allowed") Hty Hth eq_refl).
Qed.

Lemma theme_by_other_method_is_refused_under_200_witness :
  let req := Sample.request "POST" [("type", "theme"); ("name", "default")] [] None in
  handleThemeNew Sample.env req =
    ([], Returned (NextResponse_json (error_object "Not allowed") 405)) ∧
  POST Sample.env req = ([], Returned (NextResponse_json (error_object "Not allowed") 200)) ∧
  GET Sample.env req = ([], Returned (NextResponse_json (error_object "Not allowed") 200)).
Proof.
  apply (theme_by_other_method_is_refused_under_200 Sample.env
           (Sample.request "POST" [("type", "theme"); ("name", "default")] [] None)).
  - reflexivity.
  - vm_compute. discriminate.
Defined.

(** X14. A non-empty [ext] parameter is handed to the document store as
    it is, without any check of its value: a GET calls [loadData] with it
    and a POST that is not multipart calls [updateData] with it. *)
Theorem data_ext_is_forwarded env req ext :
  getQueryParams req !! "ext" = Some ext →
  ext ≠ "" →
  let route := getQueryParams req !! "path" in
  (req_method req = "GET" →
   ∃ log, trace (handleDataNew env req) = EvLoadData route ext :: log ∧
          Forall (λ ev, is_log ev = true) log) ∧
  (req_method req = "POST" → ¬ multipart_content_type req →
   ∃ log, trace (handleDataNew env req) = EvUpdateData route ext (req_body req) :: log ∧
          Forall (λ ev, is_log ev = true) log).
Proof.
  intros Hext Hne route.
  assert (Hor : or_else (getQueryParams req !! "ext") "html" = ext).
  { rewrite Hext. cbn. apply String.eqb_neq in Hne. rewrite Hne. reflexivity. }
  split.
  - intros Hm. pose proof (handleDataNew_GET env req Hm) as H. cbv zeta in H.
    rewrite Hor in H. fold route in H. rewrite H.
    destruct (loadData env route ext); eexists; split; try reflexivity; repeat constructor.
  - intros Hm Hmp.
    assert (Hf : isMultiPart req = false).
    { destruct (isMultiPart req) eqn:E; [|reflexivity].
      apply isMultiPart_spec in E. contradiction. }
    pose proof (handleDataNew_POST_update env req Hm Hf) as H. cbv zeta in H.
    rewrite Hor in H. fold route in H. rewrite H.
    destruct (updateData env route ext (req_body req));
      eexists; split; try reflexivity; repeat constructor.
Qed.

Lemma data_ext_is_forwarded_witness :
  let req := Sample.request "GET" [("type", "data"); ("path", "home"); ("ext", "../x")]
               [] None in
  (req_method req = "GET" →
   ∃ log, trace (handleDataNew Sample.env req) = EvLoadData (Some "home") "../x" :: log ∧
          Forall (λ ev, is_log ev = true) log) ∧
  (req_method req = "POST" → ¬ multipart_content_type req →
   ∃ log, trace (handleDataNew Sample.env req) =
            EvUpdateData (Some "home") "../x" (req_body req) :: log ∧
          Forall (λ ev, is_log ev = true) log).
Proof.
  apply (data_ext_is_forwarded Sample.env
           (Sample.request "GET" [("type", "data"); ("path", "home"); ("ext", "../x")]
              [] None) "../x").
  - reflexivity.
  - discriminate.
Defined.

(** *** Joined paths and the package root *)

Lemma append_assoc (a b c : string) : (a +:+ b) +:+ c = a +:+ (b +:+ c).
Proof.
  induction a as [|x a IH]; [reflexivity|].
  change (String x ((a +:+ b) +:+ c) = String x (a +:+ (b +:+ c))). congruence.
Qed.

Lemma append_empty_r (a : string) : a +:+ "" = a.
Proof.
  induction a as [|x a IH]; [reflexivity|].
  change (String x (a +:+ "") = String x a). congruence.
Qed.

Lemma prefix_append (a b : string) : String.prefix a (a +:+ b) = true.
Proof.
  induction a as [|x a IH]; [destruct b; reflexivity|].
  change (String.prefix (String x a) (String x (a +:+ b)) = true).
  cbn [String.prefix]. destruct (ascii_dec x x); [exact IH | contradiction].
Qed.

Lemma split_go_append cur a b :
  NodePath.split_go cur (a +:+ "/" +:+ b) =
    (NodePath.split_go cur a ++ NodePath.split_go "" b)%list.
Proof.
  revert cur. induction a as [|x a IH]; intros cur; [reflexivity|].
  change (String x a +:+ "/" +:+ b) with (String x (a +:+ "/" +:+ b)).
  cbn [NodePath.split_go].
  destruct (Ascii.eqb x "/"); rewrite IH; reflexivity.
Qed.

Lemma split_go_slash_free cur s :
  slash_free s = true → NodePath.split_go cur s = [cur +:+ s].
Proof.
  revert cur. induction s as [|x s IH]; intros cur Hs; cbn [NodePath.split_go].
  - rewrite append_empty_r. reflexivity.
  - cbn [slash_free] in Hs. apply andb_true_iff in Hs as [Hx Hs].
    apply negb_true_iff in Hx. rewrite Hx, (IH _ Hs), append_assoc. reflexivity.
Qed.

(** Splitting at the slashes undoes joining with slashes. *)
Lemma segments_concat (rs : list string) :
  rs ≠ [] → Forall (λ seg, slash_free seg = true) rs →
  NodePath.segments (String.concat "/" rs) = rs.
Proof.
  intros Hne Hrs. unfold NodePath.segments.
  induction Hrs as [|x rs Hx Hrs IH]; [contradiction|].
  destruct rs as [|y rs].
  - cbn. apply (split_go_slash_free "" x Hx).
  - change (String.concat "/" (x :: y :: rs))
      with (x +:+ "/" +:+ String.concat "/" (y :: rs)).
    rewrite split_go_append, (split_go_slash_free "" x Hx), IH by discriminate.
    reflexivity.
Qed.

Lemma concat_app (rs ks : list string) :
  rs ≠ [] → ks ≠ [] →
  String.concat "/" (rs ++ ks) = String.concat "/" rs +:+ "/" +:+ String.concat "/" ks.
Proof.
  intros Hrs Hks. induction rs as [|x rs IH]; [contradiction|].
  destruct rs as [|y rs].
  - destruct ks as [|k ks]; [contradiction | reflexivity].
  - change (String.concat "/" ((x :: y :: rs) ++ ks))
      with (x +:+ "/" +:+ String.concat "/" ((y :: rs) ++ ks)).
    rewrite IH by discriminate.
    change (String.concat "/" (x :: y :: rs))
      with (x +:+ "/" +:+ String.concat "/" (y :: rs)).
    rewrite !append_assoc. reflexivity.
Qed.

(** Without a [..] segment, normalisation only drops the empty and the
    [.] segments: it never pops what is already kept. *)
Lemma normalize_steps_without_dot_dot allowAboveRoot (kept segs : list string) :
  Forall (λ seg, seg ≠ "..") segs →
  foldl (NodePath.normalize_step allowAboveRoot) kept segs =
    (rev (List.filter (λ seg, negb ((seg =? "") || (seg =? "."))%string) segs) ++ kept)%list.
Proof.
  intros Hsegs. revert kept.
  induction Hsegs as [|seg segs Hseg _ IH]; intros kept; [reflexivity|].
  cbn [foldl List.filter]. rewrite IH. unfold NodePath.normalize_step.
  destruct ((seg =? "") || (seg =? "."))%string; cbn [negb]; [reflexivity|].
  apply String.eqb_neq in Hseg. rewrite Hseg. cbn [rev].
  rewrite <- app_assoc. reflexivity.
Qed.

Lemma filter_plain_segments (rs : list string) :
  Forall plain_segment rs →
  List.filter (λ seg, negb ((seg =? "") || (seg =? "."))%string) rs = rs.
Proof.
  induction 1 as [|seg rs (H1 & H2 & _) _ IH]; [reflexivity|].
  cbn. apply String.eqb_neq in H1, H2. rewrite H1, H2, IH. reflexivity.
Qed.

Lemma concat_nonempty (rs : list string) :
  rs ≠ [] → Forall plain_segment rs → String.concat "/" rs ≠ "".
Proof.
  intros Hne Hrs. destruct Hrs as [|x rs (Hx & _) _]; [contradiction|].
  destruct x as [|c x]; [contradiction|]. destruct rs; discriminate.
Qed.

(** The normal form of an absolute path whose segments are the plain
    segments [rs] followed by segments other than [..]. *)
Lemma normalize_from_segments (p : string) (rs ps : list string) :
  startsWith p "/" = true →
  NodePath.segments p = ("" :: rs ++ ps)%list →
  rs ≠ [] → Forall plain_segment rs →
  Forall (λ seg, seg ≠ "..") ps →
  let ks := List.filter (λ seg, negb ((seg =? "") || (seg =? "."))%string) ps in
  NodePath.normalize p =
    "/" +:+ (if NodePath.last_is_slash p
             then String.concat "/" (rs ++ ks) +:+ "/"
             else String.concat "/" (rs ++ ks)).
Proof.
  intros Habs Hsegs Hne Hrs Hps ks.
  assert (Hq : NodePath.normalizeString p false = String.concat "/" (rs ++ ks)).
  { unfold NodePath.normalizeString. rewrite Hsegs.
    rewrite normalize_steps_without_dot_dot.
    - cbn [List.filter String.eqb orb negb]. rewrite app_nil_r, rev_involutive.
      rewrite List.filter_app, (filter_plain_segments rs Hrs). reflexivity.
    - constructor; [discriminate|]. apply Forall_app. split; [|exact Hps].
      eapply Forall_impl; [exact Hrs|]. intros seg (_ & _ & H & _). exact H. }
  assert (Hp : (p =? "")%string = false) by (destruct p; [discriminate | reflexivity]).
  unfold NodePath.normalize. rewrite Hp, Habs. cbv zeta. cbn [negb]. rewrite Hq.
  assert (Hnonempty : String.concat "/" (rs ++ ks) ≠ "").
  { destruct ks as [|k ks'] eqn:Hks.
    - rewrite app_nil_r. apply concat_nonempty; assumption.
    - rewrite concat_app by (assumption || discriminate).
      intros Hempty. apply (concat_nonempty rs Hne Hrs).
      destruct (String.concat "/" rs); [reflexivity | discriminate]. }
  apply String.eqb_neq in Hnonempty. rewrite Hnonempty.
  destruct (NodePath.last_is_slash p); reflexivity.
Qed.

Lemma plain_segments_slash_free (rs : list string) :
  Forall plain_segment rs → Forall (λ seg, slash_free seg = true) rs.
Proof.
  intros Hrs. eapply Forall_impl; [exact Hrs|]. intros seg (_ & _ & _ & H). exact H.
Qed.

Lemma within_root_below root (s : string) : within_root root ((root +:+ "/") +:+ s) = true.
Proof. unfold within_root, startsWith. rewrite prefix_append. apply orb_true_r. Qed.

Lemma within_root_self root : within_root root root = true.
Proof. unfold within_root. rewrite String.eqb_refl. reflexivity. Qed.

(** Joining an absolute normal root with a path that has no [..] segment
    gives the root itself or a path below it. *)
Lemma join_strings_stays_below (root : string) (rs : list string) (p : string) :
  root = "/" +:+ String.concat "/" rs →
  rs ≠ [] → Forall plain_segment rs →
  Forall (λ seg, seg ≠ "..") (NodePath.segments p) →
  within_root root (NodePath.join_strings [root; p]) = true.
Proof.
  intros Hroot Hne Hrs Hp.
  pose proof (plain_segments_slash_free rs Hrs) as Hfree.
  set (C := String.concat "/" rs) in *.
  assert (Hroot_segs : NodePath.segments root = ("" :: rs)%list).
  { rewrite Hroot. unfold NodePath.segments.
    change ("/" +:+ C) with ("" +:+ "/" +:+ C). rewrite split_go_append.
    fold (NodePath.segments C). unfold C. rewrite (segments_concat rs Hne Hfree).
    reflexivity. }
  assert (Habs : ∀ s, startsWith (root +:+ s) "/" = true).
  { intros s. rewrite Hroot. apply (prefix_append "/"). }
  unfold NodePath.join_strings. cbn [List.filter].
  assert (Hnonempty : (root =? "")%string = false) by (rewrite Hroot; reflexivity).
  rewrite Hnonempty. cbn [negb].
  destruct (String.eqb_spec p "") as [->|Hpne]; cbn [negb].
  - change (String.concat "/" [root]) with root.
    rewrite (normalize_from_segments root rs []); try assumption.
    + cbn [List.filter]. rewrite app_nil_r. fold C.
      destruct (NodePath.last_is_slash root).
      * replace ("/" +:+ C +:+ "/") with ((root +:+ "/") +:+ "")
          by (rewrite Hroot, append_empty_r; reflexivity).
        apply within_root_below.
      * rewrite <- Hroot. apply within_root_self.
    + rewrite <- (append_empty_r root). apply Habs.
    + rewrite app_nil_r. exact Hroot_segs.
    + constructor.
  - change (String.concat "/" [root; p]) with (root +:+ "/" +:+ p).
    rewrite (normalize_from_segments (root +:+ "/" +:+ p) rs (NodePath.segments p));
      try assumption; [|apply Habs|].
    + set (ks := List.filter _ (NodePath.segments p)).
      destruct ks as [|k ks].
      * rewrite app_nil_r. fold C.
        destruct (NodePath.last_is_slash _).
        -- replace ("/" +:+ C +:+ "/") with ((root +:+ "/") +:+ "")
             by (rewrite Hroot, append_empty_r; reflexivity).
           apply within_root_below.
        -- rewrite <- Hroot. apply within_root_self.
      * rewrite concat_app by (assumption || discriminate). fold C.
        set (K := String.concat "/" (k :: ks)).
        destruct (NodePath.last_is_slash _).
        -- replace ("/" +:+ (C +:+ "/" +:+ K) +:+ "/") with ((root +:+ "/") +:+ (K +:+ "/"))
             by (rewrite Hroot;
                 change ((("/" +:+ C) +:+ "/") +:+ K +:+ "/")
                   with ("/" +:+ ((C +:+ "/") +:+ (K +:+ "/")));
                 rewrite !append_assoc; reflexivity).
           apply within_root_below.
        -- replace ("/" +:+ C +:+ "/" +:+ K) with ((root +:+ "/") +:+ K)
             by (rewrite Hroot;
                 change ((("/" +:+ C) +:+ "/") +:+ K) with ("/" +:+ ((C +:+ "/") +:+ K));
                 rewrite !append_assoc; reflexivity).
           apply within_root_below.
    + unfold NodePath.segments. rewrite split_go_append.
      fold (NodePath.segments root). rewrite Hroot_segs. reflexivity.
Qed.

(** X15. Only a [..] segment can lead an asset request out of the package
    root: when the root is an absolute path in normal form and no segment
    of the [path] parameter is [..], the one file the asset handler reads
    is the root itself or lies below it. *)
Theorem asset_path_without_dot_dot_stays_inside env req (rs : list string) p :
  req_method req = "GET" →
  getPackagePath env = "/" +:+ String.concat "/" rs →
  rs ≠ [] → Forall plain_segment rs →
  getQueryParams req !! "path" = Some p →
  Forall (λ seg, seg ≠ "..") (NodePath.segments p) →
  ∃ resolved,
    resolveAsset env req = Returned resolved ∧
    within_root (getPackagePath env) resolved = true ∧
    List.filter is_fs_call (trace (handleAssetNew env req)) = [EvReadFile resolved].
Proof.
  intros Hm Hroot Hne Hrs Hp Hsegs.
  exists (NodePath.join_strings [getPackagePath env; p]).
  assert (Hres : resolveAsset env req =
                 Returned (NodePath.join_strings [getPackagePath env; p])).
  { unfold resolveAsset. rewrite Hp. reflexivity. }
  split; [exact Hres|].
  split; [exact (join_strings_stays_below _ rs p Hroot Hne Hrs Hsegs)|].
  rewrite (handleAssetNew_GET env req Hm), Hres.
  destruct (fs_readFile env _); reflexivity.
Qed.

Lemma asset_path_without_dot_dot_stays_inside_witness :
  let req := Sample.request "GET" [("type", "asset"); ("path", "./img//logo.png")] [] None in
  ∃ resolved,
    resolveAsset Sample.env req = Returned resolved ∧
    within_root (getPackagePath Sample.env) resolved = true ∧
    List.filter is_fs_call (trace (handleAssetNew Sample.env req)) = [EvReadFile resolved].
Proof.
  apply (asset_path_without_dot_dot_stays_inside Sample.env
           (Sample.request "GET" [("type", "asset"); ("path", "./img//logo.png")] [] None)
           ["srv"; "app"; "node_modules"; "destack"] "./img//logo.png").
  - reflexivity.
  - reflexivity.
  - discriminate.
  - repeat (constructor; [repeat split; (discriminate || reflexivity)|]). constructor.
  - reflexivity.
  - repeat (constructor; [discriminate|]). constructor.
Defined.





(** *** The package root under a bundler layer *)

Lemma rev_app_acc (s acc : string) : String.rev_app s acc = String.rev_app s "" +:+ acc.
Proof.
  revert acc. induction s as [|c s IH]; intros acc; [reflexivity|].
  cbn [String.rev_app]. rewrite (IH (String c acc)), (IH (String c "")), append_assoc.
  reflexivity.
Qed.

Lemma rev_app_append (a b acc : string) :
  String.rev_app (a +:+ b) acc = String.rev_app b (String.rev_app a acc).
Proof.
  revert acc. induction a as [|c a IH]; intros acc; [reflexivity|].
  change (String c a +:+ b) with (String c (a +:+ b)). cbn [String.rev_app]. apply IH.
Qed.

(** Whether a path ends in a slash is decided by its last part. *)
Lemma last_is_slash_append (a b : string) :
  b ≠ "" → NodePath.last_is_slash (a +:+ b) = NodePath.last_is_slash b.
Proof.
  intros Hb. unfold NodePath.last_is_slash, String.rev.
  rewrite rev_app_append, rev_app_acc.
  destruct b as [|c b]; [contradiction|]. cbn [String.rev_app].
  rewrite (rev_app_acc b (String c "")).
  destruct (String.rev_app b "") as [|d t]; reflexivity.
Qed.

Lemma normalize_steps_plain allowAboveRoot (kept rs : list string) :
  Forall plain_segment rs →
  foldl (NodePath.normalize_step allowAboveRoot) kept rs = (rev rs ++ kept)%list.
Proof.
  intros Hrs. rewrite normalize_steps_without_dot_dot, (filter_plain_segments rs Hrs).
  - reflexivity.
  - eapply Forall_impl; [exact Hrs|]. intros seg (_ & _ & H & _). exact H.
Qed.

Lemma segments_absolute (rs : list string) :
  rs ≠ [] → Forall plain_segment rs →
  NodePath.segments ("/" +:+ String.concat "/" rs) = ("" :: rs)%list.
Proof.
  intros Hne Hrs. unfold NodePath.segments.
  change ("/" +:+ String.concat "/" rs) with ("" +:+ "/" +:+ String.concat "/" rs).
  rewrite split_go_append. fold (NodePath.segments (String.concat "/" rs)).
  rewrite (segments_concat rs Hne (plain_segments_slash_free rs Hrs)). reflexivity.
Qed.

Lemma normalize_congr (p1 p2 : string) :
  (p1 =? "")%string = (p2 =? "")%string →
  startsWith p1 "/" = startsWith p2 "/" →
  NodePath.last_is_slash p1 = NodePath.last_is_slash p2 →
  NodePath.normalizeString p1 (negb (startsWith p1 "/")) =
    NodePath.normalizeString p2 (negb (startsWith p2 "/")) →
  NodePath.normalize p1 = NodePath.normalize p2.
Proof.
  intros H1 H2 H3 H4. unfold NodePath.normalize. cbv zeta.
  rewrite H4, H1, H2, H3. reflexivity.
Qed.

(** X17. When the bundler reports the package directory under an [(api)]
    or [(rsc)] layer and the working directory is an absolute path in
    normal form with at least two segments, the package root is the
    package directory taken relative to the parent of the working
    directory; without a [..] segment in the package directory it lies
    below that parent. *)
Theorem getPackagePath_relative_to_parent env (cs : list string) (last : string) :
  startsWith (package_dir env) "(api)" || startsWith (package_dir env) "(rsc)" = true →
  process_cwd env = "/" +:+ String.concat "/" (cs ++ [last]) →
  cs ≠ [] → Forall plain_segment (cs ++ [last]) →
  let parent := "/" +:+ String.concat "/" cs in
  getPackagePath env = NodePath.join_strings [parent; package_dir env] ∧
  (Forall (λ seg, seg ≠ "..") (NodePath.segments (package_dir env)) →
   within_root parent (getPackagePath env) = true).
Proof.
  intros Hlayer Hcwd Hne Hplain parent.
  apply Forall_app in Hplain as [Hcs Hlast].
  assert (Hplain : Forall plain_segment (cs ++ [last]))
    by (apply Forall_app; split; assumption).
  set (dir := package_dir env) in *.
  assert (Hdir : dir ≠ "").
  { intros Hd. rewrite Hd in Hlayer. discriminate. }
  assert (Heq : getPackagePath env = NodePath.join_strings [parent; dir]).
  { unfold getPackagePath. cbv zeta. fold dir. rewrite Hlayer.
    set (cwd := process_cwd env) in *.
    unfold NodePath.join_strings. cbn [List.filter].
    assert (Hc : (cwd =? "")%string = false) by (rewrite Hcwd; reflexivity).
    apply String.eqb_neq in Hdir as Hd.
    rewrite Hc, Hd. cbn [String.eqb Ascii.eqb Bool.eqb negb].
    change (String.concat "/" [cwd; ".."; dir]) with (cwd +:+ "/" +:+ ".." +:+ "/" +:+ dir).
    change (String.concat "/" [parent; dir]) with (parent +:+ "/" +:+ dir).
    assert (Hsegs1 : NodePath.segments (cwd +:+ "/" +:+ ".." +:+ "/" +:+ dir) =
                     (("" :: cs ++ [last]) ++ ".." :: NodePath.segments dir)%list).
    { unfold NodePath.segments. rewrite split_go_append, split_go_append.
      fold (NodePath.segments cwd). rewrite Hcwd, segments_absolute; [reflexivity| |exact Hplain].
      destruct cs; discriminate. }
    assert (Hsegs2 : NodePath.segments (parent +:+ "/" +:+ dir) =
                     (("" :: cs) ++ NodePath.segments dir)%list).
    { unfold NodePath.segments. rewrite split_go_append.
      fold (NodePath.segments parent). unfold parent.
      rewrite segments_absolute by assumption. reflexivity. }
    assert (Habs1 : startsWith (cwd +:+ "/" +:+ ".." +:+ "/" +:+ dir) "/" = true)
      by (rewrite Hcwd; apply (prefix_append "/")).
    assert (Habs2 : startsWith (parent +:+ "/" +:+ dir) "/" = true)
      by apply (prefix_append "/").
    assert (Hlast1 : NodePath.last_is_slash (cwd +:+ "/" +:+ ".." +:+ "/" +:+ dir) =
                     NodePath.last_is_slash dir).
    { replace (cwd +:+ "/" +:+ ".." +:+ "/" +:+ dir) with ((cwd +:+ "/../") +:+ dir)
        by (rewrite append_assoc; reflexivity).
      apply last_is_slash_append. exact Hdir. }
    assert (Hlast2 : NodePath.last_is_slash (parent +:+ "/" +:+ dir) =
                     NodePath.last_is_slash dir).
    { replace (parent +:+ "/" +:+ dir) with ((parent +:+ "/") +:+ dir)
        by (rewrite append_assoc; reflexivity).
      apply last_is_slash_append. exact Hdir. }
    assert (Hnorm : NodePath.normalizeString (cwd +:+ "/" +:+ ".." +:+ "/" +:+ dir) false =
                    NodePath.normalizeString (parent +:+ "/" +:+ dir) false).
    { unfold NodePath.normalizeString. rewrite Hsegs1, Hsegs2. f_equal. f_equal.
      rewrite !foldl_app. cbn [foldl].
      change (NodePath.normalize_step false [] "") with (@nil string).
      rewrite (normalize_steps_plain false [] (cs ++ [last]) Hplain),
              (normalize_steps_plain false [] cs Hcs), !app_nil_r.
      rewrite rev_app_distr. cbn [rev app].
      unfold NodePath.normalize_step at 2.
      cbn [String.eqb Ascii.eqb Bool.eqb orb].
      apply Forall_singleton in Hlast as (_ & _ & Hl & _). apply String.eqb_neq in Hl.
      rewrite Hl. reflexivity. }
    apply (normalize_congr (cwd +:+ "/" +:+ ".." +:+ "/" +:+ dir) (parent +:+ "/" +:+ dir)).
    - rewrite Hcwd. reflexivity.
    - exact (eq_trans Habs1 (eq_sym Habs2)).
    - exact (eq_trans Hlast1 (eq_sym Hlast2)).
    - rewrite Habs1. etransitivity; [exact Hnorm|].
      f_equal. symmetry. exact (f_equal negb Habs2). }
  split; [exact Heq|]. intros Hsegs. rewrite Heq.
  exact (join_strings_stays_below parent cs dir eq_refl Hne Hcs Hsegs).
Qed.

Lemma getPackagePath_relative_to_parent_witness :
  getPackagePath Sample.layered =
    NodePath.join_strings ["/srv/app"; "(rsc)/node_modules/destack"] ∧
  (Forall (λ seg, seg ≠ "..") (NodePath.segments (package_dir Sample.layered)) →
   within_root "/srv/app" (getPackagePath Sample.layered) = true).
Proof.
  apply (getPackagePath_relative_to_parent Sample.layered ["srv"; "app"] ".next").
  - reflexivity.
  - reflexivity.
  - discriminate.
  - repeat (constructor; [repeat split; (discriminate || reflexivity)|]). constructor.
Defined.

(** *** When the route chooses a client-error status *)

(** X18. Inside the route the status is one of 200, 400, 405 and 500, and
    the two client-error statuses arise for client errors only: 400
    exactly when the type is none of [data], [asset] and [theme], and 405
    exactly when the type is [data] and the method is neither GET nor
    POST, or the type is [asset] or [theme] and the method is not GET. *)
Theorem client_error_statuses_characterised env req (query : gmap string string) :
  let st := status_of (handleEditorNew env req query) in
  (st = Some 200 ∨ st = Some 400 ∨ st = Some 405 ∨ st = Some 500) ∧
  (st = Some 400 ↔
   query !! "type" ≠ Some "data" ∧ query !! "type" ≠ Some "asset" ∧
   query !! "type" ≠ Some "theme") ∧
  (st = Some 405 ↔
   (query !! "type" = Some "data" ∧ req_method req ≠ "GET" ∧ req_method req ≠ "POST") ∨
   ((query !! "type" = Some "asset" ∨ query !! "type" = Some "theme") ∧
    req_method req ≠ "GET")).
Proof.
  cbv zeta. rewrite handleEditorNew_dispatch.
  destruct (strict_eq (query !! "type") "data") eqn:Ed.
  { apply strict_eq_true in Ed. rewrite Ed.
    destruct (handleDataNew_status env req) as [[Hs [-> | ->]] | (Hg & Hp & ->)].
    - split; [auto|]. split; split; try discriminate.
      + intros (H & _). contradiction.
      + intros [(_ & Hg & Hp) | ([[=] | [=]] & _)]. destruct Hs; contradiction.
    - split; [auto|]. split; split; try discriminate.
      + intros (H & _). contradiction.
      + intros [(_ & Hg & Hp) | ([[=] | [=]] & _)]. destruct Hs; contradiction.
    - split; [auto|]. split; split; try discriminate; auto.
      intros (H & _). contradiction. }
  destruct (strict_eq (query !! "type") "asset") eqn:Ea.
  { apply strict_eq_true in Ea. rewrite Ea.
    destruct (handleAssetNew_status env req) as [[Hs [-> | ->]] | (Hg & ->)].
    - split; [auto|]. split; split; try discriminate.
      + intros (_ & H & _). contradiction.
      + intros [([=] & _) | (_ & Hg)]. contradiction.
    - split; [auto|]. split; split; try discriminate.
      + intros (_ & H & _). contradiction.
      + intros [([=] & _) | (_ & Hg)]. contradiction.
    - split; [auto|]. split; split; try discriminate; auto.
      intros (_ & H & _). contradiction. }
  destruct (strict_eq (query !! "type") "theme") eqn:Et.
  { apply strict_eq_true in Et. rewrite Et.
    destruct (handleThemeNew_status env req) as [[Hs [-> | ->]] | (Hg & ->)].
    - split; [auto|]. split; split; try discriminate.
      + intros (_ & _ & H). contradiction.
      + intros [([=] & _) | (_ & Hg)]. contradiction.
    - split; [auto|]. split; split; try discriminate.
      + intros (_ & _ & H). contradiction.
      + intros [([=] & _) | (_ & Hg)]. contradiction.
    - split; [auto|]. split; split; try discriminate; auto.
      intros (_ & _ & H). contradiction. }
  assert (Hd : query !! "type" ≠ Some "data")
    by (intros H; apply strict_eq_true in H; congruence).
  assert (Ha : query !! "type" ≠ Some "asset")
    by (intros H; apply strict_eq_true in H; congruence).
  assert (Ht : query !! "type" ≠ Some "theme")
    by (intros H; apply strict_eq_true in H; congruence).
  split; [right; left; reflexivity|]. split; split; try discriminate; auto.
  intros [(H & _) | ([H | H] & _)]; contradiction.
Qed.
